(** * PendulumSimulator: a shallow embedding of [pendulum_simulator.ipynb]

    The notebook defines one class, [PendulumSimulator], whose methods
    integrate the simple pendulum with a fixed-step Runge-Kutta-4 scheme on
    torch tensors.  This development embeds the class method by method and
    proves properties of the embedded methods.

    Modelling conventions.
    - Python floats and tensor elements are real numbers ([R]); rounding,
      dtype (float32 / float64) and the execution device are not modelled.
      The one place where rounding changes a discrete result, the quotient
      [duration / dt] that [int] truncates to the number of steps, is a
      parameter of the embedding of [simulate] (see [simulate_with]).
    - Tensors carry no autograd state; whether the initial state requires
      grad, which decides if the conversion to numpy raises, is passed to
      [simulate_with] beside it.
    - A tensor is its shape together with its elements in row-major order.
    - A Python exception is a value of [exn]; a method that may raise
      returns a [result].
    - The simulator object is its instance dictionary, a finite map from
      attribute names to Python values; methods read their parameters from
      it, as the source does through [self]. *)

From Stdlib Require Import Reals Lra Lia ZArith.
From stdpp Require Import base option list gmap strings.

(** ** Exceptions and results *)

Inductive exn : Type :=
| ValueError (msg : string)
| TypeError
| IndexError
| RuntimeError
| ZeroDivisionError
| AttributeError.

Inductive result (A : Type) : Type :=
| Ok (a : A)
| Raise (e : exn).
Arguments Ok {A} a.
Arguments Raise {A} e.

#[global] Instance result_ret : MRet result := fun _ a => Ok a.
#[global] Instance result_bind : MBind result := fun _ _ f m =>
  match m with
  | Ok a => f a
  | Raise e => Raise e
  end.

Definition returns {A} (m : result A) : Prop := exists a, m = Ok a.
Definition raises {A} (m : result A) : Prop := exists e, m = Raise e.

(** ** Tensors *)

Record tensor : Type := Tensor { shape : list nat; data : list R }.

Definition numel (s : list nat) : nat := foldr Nat.mul 1%nat s.

(** [t.dim()] *)
Definition dim (t : tensor) : nat := length (shape t).

(** The elements of a tensor fill its shape. *)
Definition wf (t : tensor) : Prop := length (data t) = numel (shape t).

(** Leading axes and size of the last axis; [None] for a 0-dimensional tensor. *)
Fixpoint split_last (s : list nat) : option (list nat * nat) :=
  match s with
  | [] => None
  | d :: s' =>
      match split_last s' with
      | None => Some ([], d)
      | Some (lead, n) => Some (d :: lead, n)
      end
  end.

(** The first [k] rows of length [n] of a row-major element list. *)
Fixpoint chunks (k n : nat) (l : list R) : list (list R) :=
  match k with
  | O => []
  | S k' => take n l :: chunks k' n (drop n l)
  end.

(** [t[..., a:b]] for [0 <= a <= b]: Python clips both bounds to the axis. *)
Definition slice_last (a b : nat) (t : tensor) : result tensor :=
  match split_last (shape t) with
  | None => Raise IndexError
  | Some (lead, n) =>
      let a' := Nat.min a n in
      let b' := Nat.min b n in
      Ok (Tensor (lead ++ [b' - a'])
            (concat (map (fun row => take (b' - a') (drop a' row))
                         (chunks (numel lead) n (data t)))))
  end.

(** [t[..., i]] for [0 <= i]: the last axis is removed. *)
Definition index_last (i : nat) (t : tensor) : result tensor :=
  match split_last (shape t) with
  | None => Raise IndexError
  | Some (lead, n) =>
      if (i <? n)%nat then
        Ok (Tensor lead
              (map (fun row => nth i row 0%R) (chunks (numel lead) n (data t))))
      else Raise IndexError
  end.

(** [torch.cat([a, b], dim=-1)]: the leading axes must agree. *)
Definition cat_last (a b : tensor) : result tensor :=
  match split_last (shape a), split_last (shape b) with
  | Some (la, na), Some (lb, nb) =>
      if decide (la = lb) then
        Ok (Tensor (la ++ [(na + nb)%nat])
              (concat (zip_with app (chunks (numel la) na (data a))
                                    (chunks (numel lb) nb (data b)))))
      else Raise RuntimeError
  | _, _ => Raise RuntimeError
  end.

(** Elementwise functions such as [torch.sin]. *)
Definition tmap (f : R -> R) (t : tensor) : tensor :=
  Tensor (shape t) (map f (data t)).

(** [c * t] for a Python number [c]. *)
Definition smul (c : R) (t : tensor) : tensor := tmap (Rmult c) t.

(** [a + b].  In this program the two operands always have the same leading
    axes and last axes [n] and [min n 2] (see [dynamics_shape]), so they have
    equal shapes or cannot be broadcast; only these two cases are modelled. *)
Definition tadd (a b : tensor) : result tensor :=
  if decide (shape a = shape b) then
    Ok (Tensor (shape a) (zip_with Rplus (data a) (data b)))
  else Raise RuntimeError.

(** [torch.zeros(s)] *)
Definition zeros (s : list nat) : tensor := Tensor s (replicate (numel s) 0%R).

(** [t.unsqueeze(0)] *)
Definition unsqueeze0 (t : tensor) : tensor := Tensor (1%nat :: shape t) (data t).

(** [torch.linspace(start, stop, steps)]: no sample for [steps = 0], the
    single sample [start] for [steps = 1], and otherwise [steps] samples
    [start + i * (stop - start) / (steps - 1)]. *)
Definition linspace (start stop : R) (steps : nat) : tensor :=
  Tensor [steps]
    match steps with
    | O => []
    | S O => [start]
    | S n => map (fun i => (start + INR i * ((stop - start) / INR n))%R)
                 (seq 0 steps)
    end.

(** [traj[i] = st] along the first axis; [st] must have the shape of an entry. *)
Definition setitem0 (traj : tensor) (i : nat) (st : tensor) : result tensor :=
  match shape traj with
  | [] => Raise IndexError
  | d :: s =>
      if (i <? d)%nat then
        if decide (shape st = s) then
          Ok (Tensor (d :: s)
                (take (i * numel s) (data traj) ++ data st ++
                 drop ((i + 1) * numel s) (data traj)))
        else Raise RuntimeError
      else Raise IndexError
  end.

(** [traj[i]] along the first axis. *)
Definition getitem0 (traj : tensor) (i : nat) : result tensor :=
  match shape traj with
  | [] => Raise IndexError
  | d :: s =>
      if (i <? d)%nat then
        Ok (Tensor s (take (numel s) (drop (i * numel s) (data traj))))
      else Raise IndexError
  end.

(** [len(t)] *)
Definition len (t : tensor) : result nat :=
  match shape t with
  | [] => Raise TypeError
  | d :: _ => Ok d
  end.

(** ** Python values *)

(** The objects a caller passes as parameter values or as a non-tensor
    initial state.  None of them is callable, and none is a tensor:
    tensor-valued parameters are outside this model. *)
#[warnings="-register-all"]
Inductive pyval : Type :=
| PyNone
| PyInt (z : Z)
| PyFloat (r : R)
| PyStr (s : string)
| PyList (l : list pyval).

(** The value of a Python number. *)
Definition number (v : pyval) : result R :=
  match v with
  | PyInt z => Ok (IZR z)
  | PyFloat r => Ok r
  | _ => Raise TypeError
  end.

(** [a / b] on Python objects: true division of numbers. *)
Definition py_div (a b : pyval) : result R :=
  x ← number a;
  y ← number b;
  if Req_EM_T y 0 then Raise ZeroDivisionError else Ok (x / y)%R.

(** [a * b] on Python objects: numbers multiply, an [int] repeats a
    string or a list. *)
Definition py_mul (a b : pyval) : result pyval :=
  match a, b with
  | PyInt x, PyInt y => Ok (PyInt (x * y))
  | PyInt x, PyFloat y => Ok (PyFloat (IZR x * y))
  | PyFloat x, PyInt y => Ok (PyFloat (x * IZR y))
  | PyFloat x, PyFloat y => Ok (PyFloat (x * y))
  | PyInt n, PyStr s | PyStr s, PyInt n =>
      Ok (PyStr (String.concat "" (replicate (Z.to_nat n) s)))
  | PyInt n, PyList l | PyList l, PyInt n =>
      Ok (PyList (concat (replicate (Z.to_nat n) l)))
  | _, _ => Raise TypeError
  end.

(** [v * t] for a tensor [t] of floats: only a number multiplies it. *)
Definition py_mul_tensor (v : pyval) (t : tensor) : result tensor :=
  c ← number v; Ok (smul c t).

(** [v(arg)]: no object of [pyval] is callable. *)
Definition py_call (v : pyval) (arg : tensor) : result tensor := Raise TypeError.

(** [int(x)] for a float [x]: truncation towards zero. *)
Definition py_int (x : R) : Z :=
  if Rle_dec 0 x then Int_part x else (- Int_part (- x))%Z.

(** ** The simulator object *)

(** The instance dictionary of a [PendulumSimulator]. *)
Abbreviation PendulumSimulator := (gmap string pyval).

(** Names bound in the body of the class. *)
Definition class_attrs : list string :=
  ["__init__"; "set_params"; "dynamics"; "rk4_step"; "simulate";
   "compute_cartesian_coords"; "compute_energy"].

(** Names every instance of a plain class resolves through its type:
    the attributes of [object] and the [__module__], [__dict__] and
    [__weakref__] entries of the class (CPython 3.12, the notebook's kernel). *)
Definition object_attrs : list string :=
  ["__class__"; "__delattr__"; "__dict__"; "__dir__"; "__doc__"; "__eq__";
   "__format__"; "__ge__"; "__getattribute__"; "__getstate__"; "__gt__";
   "__hash__"; "__init_subclass__"; "__le__"; "__lt__"; "__module__";
   "__ne__"; "__new__"; "__reduce__"; "__reduce_ex__"; "__repr__";
   "__setattr__"; "__sizeof__"; "__str__"; "__subclasshook__"; "__weakref__"].

(** [PendulumSimulator(device)]; the source defaults [device] to ["mps"]. *)
Definition __init__ (device : pyval) : PendulumSimulator :=
  let self : PendulumSimulator := ∅ in
  let self := <["device" := device]> self in
  let self := <["g" := PyFloat 9.81]> self in
  let self := <["L" := PyFloat 1.0]> self in
  let self := <["m" := PyFloat 1.0]> self in
  self.

(** [hasattr(self, key)] *)
Definition hasattr (self : PendulumSimulator) (key : string) : bool :=
  bool_decide (is_Some (self !! key))
  || bool_decide (key ∈ class_attrs)
  || bool_decide (key ∈ object_attrs).

(** [setattr(self, key, value)].  Three names are data descriptors of the
    type: [__class__] and [__dict__] accept only a class and a dictionary,
    which no [pyval] is, and [__weakref__] is read-only.  Every other name is
    stored in the instance dictionary. *)
Definition setattr (self : PendulumSimulator) (key : string) (value : pyval)
  : result PendulumSimulator :=
  if decide (key = "__class__") then Raise TypeError
  else if decide (key = "__dict__") then Raise TypeError
  else if decide (key = "__weakref__") then Raise AttributeError
  else Ok (<[key := value]> self).

(** [self.name] for a data attribute set in [__init__]. *)
Definition getattr (self : PendulumSimulator) (name : string) : result pyval :=
  match self !! name with
  | Some v => Ok v
  | None => Raise AttributeError
  end.

(** [self.name(...)] for a method of the class: an instance attribute of the
    same name shadows the method, and no [pyval] can be called. *)
Definition method (self : PendulumSimulator) (name : string) : result unit :=
  match self !! name with
  | Some _ => Raise TypeError
  | None => Ok tt
  end.

(** The exception [ValueError(f"parameter '{key}' invalid.")] *)
Definition invalid_parameter (key : string) : exn :=
  ValueError ("parameter '" +:+ key +:+ "' invalid.").

(** [set_params] applied to its keyword arguments, in call order.  The
    outcome comes with the object as the call leaves it. *)
Fixpoint set_params (self : PendulumSimulator) (kwargs : list (string * pyval))
  : result unit * PendulumSimulator :=
  match kwargs with
  | [] => (Ok tt, self)
  | (key, value) :: kwargs' =>
      if hasattr self key then
        match setattr self key value with
        | Ok self' => set_params self' kwargs'
        | Raise e => (Raise e, self)
        end
      else (Raise (invalid_parameter key), self)
  end.

(** [dynamics(state, t)]; the source defaults [t] to 0. *)
Definition dynamics (self : PendulumSimulator) (state : tensor) (t : R)
  : result tensor :=
  theta ← slice_last 0 1 state;
  omega ← slice_last 1 2 state;
  let dTheta_dt := omega in
  g ← getattr self "g";
  L ← getattr self "L";
  q ← py_div g L;
  let dOmega_dt := smul (- q) (tmap sin theta) in
  cat_last dTheta_dt dOmega_dt.

(** [rk4_step(state, dt)] *)
Definition rk4_step (self : PendulumSimulator) (state : tensor) (dt : R)
  : result tensor :=
  _ ← method self "dynamics";
  k1 ← dynamics self state 0;
  s1 ← tadd state (smul (0.5 * dt) k1);
  k2 ← dynamics self s1 0;
  s2 ← tadd state (smul (0.5 * dt) k2);
  k3 ← dynamics self s2 0;
  s3 ← tadd state (smul dt k3);
  k4 ← dynamics self s3 0;
  a ← tadd k1 (smul 2 k2);
  b ← tadd a (smul 2 k3);
  c ← tadd b k4;
  tadd state (smul (dt / 6.0) c).

(** The initial state handed to [simulate]: a [torch.Tensor] or any other
    Python object. *)
Inductive state_arg : Type :=
| FromTensor (t : tensor)
| FromObject (v : pyval).

(** What [simulate] hands back: torch tensors, or numpy arrays with the
    same shape and elements. *)
Inductive array : Type :=
| TorchTensor (t : tensor)
| NumpyArray (t : tensor).

Definition array_tensor (a : array) : tensor :=
  match a with
  | TorchTensor t => t
  | NumpyArray t => t
  end.

(** [torch.Tensor(v, dtype=torch.float32, device=device)], the call
    [simulate] makes on a non-tensor initial state.  The constructor of the
    [torch.Tensor] class takes the keyword [device] only; called with a
    [dtype] keyword its argument parsing fails with a [TypeError], whatever
    the data is. *)
Definition torch_Tensor_dtype_device (v device : pyval) : result tensor :=
  Raise TypeError.

(** [torch.zeros((n, *s))] for a Python [int] [n] *)
Definition torch_zeros (n : Z) (s : list nat) : result tensor :=
  if (n <? 0)%Z then Raise RuntimeError else Ok (zeros (Z.to_nat n :: s)).

(** [torch.linspace(start, stop, n)] for a Python [int] [n] *)
Definition torch_linspace (start stop : R) (n : Z) : result tensor :=
  if (n <? 0)%Z then Raise RuntimeError else Ok (linspace start stop (Z.to_nat n)).

(** The body of [for i in range(n_steps)], run over the indices [range]. *)
Fixpoint simulate_loop (self : PendulumSimulator) (dt : R) (range : list nat)
    (state trajectory : tensor) : result (tensor * tensor) :=
  match range with
  | [] => Ok (state, trajectory)
  | i :: range' =>
      _ ← method self "rk4_step";
      state ← rk4_step self state dt;
      trajectory ← setitem0 trajectory (i + 1) state;
      simulate_loop self dt range' state trajectory
  end.

(** [simulate(initial_state, duration, dt, return_tensor)]; the source
    defaults [dt] to 0.01 and [return_tensor] to [True].

    Two things the other definitions idealise are explicit here.
    [quot duration dt] is the quotient [duration / dt] as Python computes
    it, the exact quotient rounded to a float, which [int] then truncates.
    [requires_grad] says whether the initial state requires grad: the steps
    written into the trajectory then require grad too, and
    [trajectory.cpu().numpy()] raises a [RuntimeError] on such a tensor
    (the times never require grad and are converted first). *)
Definition simulate_with (quot : R -> R -> R) (requires_grad : bool)
    (self : PendulumSimulator) (initial_state : state_arg)
    (duration dt : R) (return_tensor : bool) : result (array * array) :=
  initial_state ←
    match initial_state with
    | FromTensor t => Ok t
    | FromObject v =>
        device ← getattr self "device";
        torch_Tensor_dtype_device v device
    end;
  let initial_state :=
    if (dim initial_state =? 1)%nat then unsqueeze0 initial_state
    else initial_state in
  n_steps ←
    (if Req_EM_T dt 0 then Raise ZeroDivisionError
     else Ok (py_int (quot duration dt)));
  _ ← getattr self "device";
  trajectory ← torch_zeros (n_steps + 1) (shape initial_state);
  _ ← getattr self "device";
  times ← torch_linspace 0 duration (n_steps + 1);
  let state := initial_state in
  '(state, trajectory) ←
    simulate_loop self dt (seq 0 (Z.to_nat n_steps)) state trajectory;
  if return_tensor then Ok (TorchTensor times, TorchTensor trajectory)
  else if requires_grad && (0 <? n_steps)%Z then Raise RuntimeError
  else Ok (NumpyArray times, NumpyArray trajectory).

(** [simulate] on an initial state that does not require grad, at a
    quotient that needs no rounding, as for one second in steps of 0.01,
    where Python's quotient is 100.0. *)
Definition simulate : PendulumSimulator -> state_arg -> R -> R -> bool ->
                      result (array * array) :=
  simulate_with Rdiv false.

(** [compute_cartesian_coords(states)] *)
Definition compute_cartesian_coords (self : PendulumSimulator) (states : tensor)
  : result (tensor * tensor) :=
  L ← getattr self "L";
  theta ← index_last 0 states;
  x ← py_mul_tensor L (tmap sin theta);
  L ← getattr self "L";
  theta ← index_last 0 states;
  y ← py_mul_tensor L (tmap cos theta);
  Ok (x, y).

(** [compute_energy(states)] *)
Definition compute_energy (self : PendulumSimulator) (states : tensor)
  : result tensor :=
  theta ← index_last 0 states;
  omega ← index_last 1 states;
  (* T = 0.5 * self.m * (self.L * omega)**2 *)
  m ← getattr self "m";
  half_m ← py_mul (PyFloat 0.5) m;
  L ← getattr self "L";
  L_omega ← py_mul_tensor L omega;
  T ← py_mul_tensor half_m (tmap (fun x => x ^ 2)%R L_omega);
  (* U = self.m * self.g * self.L(1 - torch.cos(theta)) *)
  m ← getattr self "m";
  g ← getattr self "g";
  m_g ← py_mul m g;
  L ← getattr self "L";
  called ← py_call L (tmap (fun c => 1 - c)%R (tmap cos theta));
  U ← py_mul_tensor m_g called;
  (* E = T + U *)
  tadd T U.

(** ** The formulas of the specification

    The pendulum equation and the classical Runge-Kutta step on a single
    state [(theta, omega)], written as the specification states them. *)

Definition vec : Type := R * R.

Definition vadd (u v : vec) : vec := (u.1 + v.1, u.2 + v.2)%R.
Definition vscale (c : R) (v : vec) : vec := (c * v.1, c * v.2)%R.

Definition f_spec (g L : R) (s : vec) : vec := (s.2, - (g / L) * sin s.1)%R.

Definition rk4_spec (g L dt : R) (s : vec) : vec :=
  let k1 := f_spec g L s in
  let k2 := f_spec g L (vadd s (vscale (0.5 * dt) k1)) in
  let k3 := f_spec g L (vadd s (vscale (0.5 * dt) k2)) in
  let k4 := f_spec g L (vadd s (vscale dt k3)) in
  vadd s (vscale (dt / 6)
            (vadd (vadd (vadd k1 (vscale 2 k2)) (vscale 2 k3)) k4)).

Definition energy_spec (m g L : R) (s : vec) : R :=
  (0.5 * m * (L * s.2) ^ 2 + m * g * L * (1 - cos s.1))%R.

(** The elements of a batch of states, row after row. *)
Definition row (p : vec) : list R := [p.1; p.2].
Definition flat (ps : list vec) : list R := concat (map row ps).

(** ** The simulator's parameters *)

(** Attribute [name] holds a Python number of value [x]. *)
Definition has_number (self : PendulumSimulator) (name : string) (x : R) : Prop :=
  exists v, self !! name = Some v /\ number v = Ok x.

(** The simulator holds numbers [g] and [L] as gravity and length, and the
    length is not zero. *)
Record params (self : PendulumSimulator) (g L : R) : Prop := {
  params_g : has_number self "g" g;
  params_L : has_number self "L" L;
  params_L_nonzero : L <> 0%R
}.

(** In addition no instance attribute shadows the methods [simulate] and
    [rk4_step] call, and the device attribute is present. *)
Record ready (self : PendulumSimulator) (g L : R) : Prop := {
  ready_params : params self g L;
  ready_dynamics : self !! "dynamics" = None;
  ready_rk4_step : self !! "rk4_step" = None;
  ready_device : is_Some (self !! "device")
}.

(** ** Vocabulary of the statements *)

(** The batch promotion [simulate] applies to a tensor initial state:
    a single state becomes a batch of one. *)
Definition batch_promote (t : tensor) : tensor :=
  if (dim t =? 1)%nat then unsqueeze0 t else t.

(** A batch of pendulum states: the last axis has size 2. *)
Definition state_shaped (t : tensor) : Prop :=
  exists lead, shape t = lead ++ [2%nat].

(** The states of a batch after [i] steps of [rk4_spec]. *)
Definition rk4_iter (g L dt : R) (i : nat) (ps : list vec) : list vec :=
  Nat.iter i (map (rk4_spec g L dt)) ps.

(** The container [simulate] returns a tensor in, by its flag. *)
Definition as_array (return_tensor : bool) (t : tensor) : array :=
  if return_tensor then TorchTensor t else NumpyArray t.

(** The trajectory [simulate] builds from a batch [ps] in [n] steps: a block
    of zeros, then the states after 1, ..., [n] steps. *)
Definition trajectory_of (g L dt : R) (lead : list nat) (n : nat) (ps : list vec)
  : tensor :=
  Tensor (S n :: lead ++ [2%nat])
    (concat (replicate (numel (lead ++ [2%nat])) 0%R
             :: map (fun i => flat (rk4_iter g L dt i ps)) (seq 1 n))).

(** The names [setattr] refuses on an instance (see [setattr]). *)
Definition descriptor_slots : list string :=
  ["__class__"; "__dict__"; "__weakref__"].

(** The object after the assignments [kwargs], in order. *)
Definition assign_all (self : PendulumSimulator) (kwargs : list (string * pyval))
  : PendulumSimulator :=
  foldl (fun s kv => <[kv.1 := kv.2]> s) self kwargs.

(** ** Vocabulary of the further properties *)

(** [i] calls of [rk4_step] in a row, each on the result of the one before. *)
Fixpoint rk4_steps (self : PendulumSimulator) (dt : R) (i : nat) (state : tensor)
  : result tensor :=
  match i with
  | O => Ok state
  | S i' => state' ← rk4_steps self dt i' state; rk4_step self state' dt
  end.

(** A state in which the derivative [dynamics] computes is zero: no
    velocity, and an angle whose sine is zero. *)
Definition equilibrium (p : vec) : Prop := sin p.1 = 0%R /\ p.2 = 0%R.

(** The state mirrored at the vertical, and the state one full turn further. *)
Definition mirror (p : vec) : vec := (- p.1, - p.2)%R.
Definition full_turn (p : vec) : vec := (p.1 + 2 * PI, p.2)%R.

(** What is assumed of the rounded quotient [quot a b] of two floats:
    rounding to nearest is monotone and leaves the integers up to [2^53]
    in size, which are floats, where they are.  So the rounded quotient is
    on the same side of every such integer as the exact quotient.  Both the
    quotient of IEEE 754 binary64 arithmetic (where it does not overflow)
    and the exact quotient meet this. *)
Record rounded_division (quot : R -> R -> R) : Prop := {
  quot_above : forall (a b : R) (k : Z),
    (Z.abs k <= 2 ^ 53)%Z -> (IZR k <= a / b)%R -> (IZR k <= quot a b)%R;
  quot_below : forall (a b : R) (k : Z),
    (Z.abs k <= 2 ^ 53)%Z -> (a / b <= IZR k)%R -> (quot a b <= IZR k)%R
}.

(** The float quotient of the floats nearest to 0.3 and 0.1: Python prints
    [0.3 / 0.1] as [2.9999999999999996], one unit in the last place below 3,
    although the exact quotient of the decimals is 3.  [quot_three_tenths]
    is that quotient at these two floats and the exact quotient elsewhere. *)
Definition float_0_3 : R := (5404319552844595 / 18014398509481984)%R.
Definition float_0_1 : R := (3602879701896397 / 36028797018963968)%R.
Definition float_0_3_div_0_1 : R := (6755399441055743 / 2251799813685248)%R.

Definition quot_three_tenths (a b : R) : R :=
  if Req_EM_T a float_0_3 then
    if Req_EM_T b float_0_1 then float_0_3_div_0_1 else (a / b)%R
  else (a / b)%R.

(** The attributes the methods [dynamics], [rk4_step] and [simulate] read or
    resolve. *)
Definition simulation_attrs : list string :=
  ["g"; "L"; "device"; "dynamics"; "rk4_step"].

(** Two computations that start with the same call: case on its outcome. *)
Ltac same_head :=
  match goal with
  | |- (?m ≫= _) = (?m ≫= _) =>
      destruct m; [cbn [mbind result_bind]|reflexivity]
  end.

(** Membership of a name in an explicit list of names, or not. *)
Ltac name_in_list :=
  repeat first [apply list_elem_of_here | apply list_elem_of_further].
Ltac name_not_in_list :=
  let H := fresh in
  intros H;
  repeat (apply elem_of_cons in H as [H|H]; [discriminate H|]);
  by apply elem_of_nil in H.

(** ** The operations on small inputs *)

Section Examples.

Local Open Scope R_scope.

Example slice_last_theta_column :
  slice_last 0 1 (Tensor [2%nat; 2%nat] [1; 2; 3; 4])
  = Ok (Tensor [2%nat; 1%nat] [1; 3]).
Proof. reflexivity. Qed.

Example slice_last_omega_column :
  slice_last 1 2 (Tensor [2%nat; 2%nat] [1; 2; 3; 4])
  = Ok (Tensor [2%nat; 1%nat] [2; 4]).
Proof. reflexivity. Qed.

Example slice_last_clipped :
  slice_last 1 2 (Tensor [2%nat; 1%nat] [1; 2]) = Ok (Tensor [2%nat; 0%nat] []).
Proof. reflexivity. Qed.

Example slice_last_scalar : slice_last 0 1 (Tensor [] [1]) = Raise IndexError.
Proof. reflexivity. Qed.

Example index_last_omega_column :
  index_last 1 (Tensor [2%nat; 2%nat] [1; 2; 3; 4]) = Ok (Tensor [2%nat] [2; 4]).
Proof. reflexivity. Qed.

Example cat_last_columns_example :
  cat_last (Tensor [2%nat; 1%nat] [1; 3]) (Tensor [2%nat; 1%nat] [2; 4])
  = Ok (Tensor [2%nat; 2%nat] [1; 2; 3; 4]).
Proof. reflexivity. Qed.

Example setitem0_second_entry :
  setitem0 (zeros [3%nat; 1%nat; 2%nat]) 1 (Tensor [1%nat; 2%nat] [5; 6])
  = Ok (Tensor [3%nat; 1%nat; 2%nat] [0; 0; 5; 6; 0; 0]).
Proof. reflexivity. Qed.

Example getitem0_second_entry :
  getitem0 (Tensor [3%nat; 1%nat; 2%nat] [0; 0; 5; 6; 0; 0]) 1
  = Ok (Tensor [1%nat; 2%nat] [5; 6]).
Proof. reflexivity. Qed.

Example getitem0_past_the_end :
  getitem0 (Tensor [3%nat; 1%nat; 2%nat] [0; 0; 5; 6; 0; 0]) 3 = Raise IndexError.
Proof. reflexivity. Qed.

Example set_params_unknown_name :
  (set_params (__init__ (PyStr "mps")) [("nonexistent", PyInt 1)]).1
  = Raise (ValueError "parameter 'nonexistent' invalid.").
Proof. reflexivity. Qed.

(** Once [set_params(dynamics=1)] has shadowed the method, a step fails. *)
Example rk4_step_shadowed_dynamics :
  rk4_step (set_params (__init__ (PyStr "mps")) [("dynamics", PyInt 1)]).2
    (Tensor [2%nat] [0.1; 0]) 0.01
  = Raise TypeError.
Proof. reflexivity. Qed.

End Examples.

(** ** Rows of a row-major element list *)

Section Rows.

Lemma split_last_app (lead : list nat) (n : nat) :
  split_last (lead ++ [n]) = Some (lead, n).
Proof.
  induction lead as [|d lead IH]; simpl; [reflexivity|].
  by rewrite IH.
Qed.

Lemma split_last_Some (s lead : list nat) (n : nat) :
  split_last s = Some (lead, n) -> s = lead ++ [n].
Proof.
  revert lead; induction s as [|d s IH]; intros lead; simpl; [done|].
  destruct (split_last s) as [[lead' n']|] eqn:E.
  - intros [= <- <-]. simpl. f_equal. by apply IH.
  - intros [= <- <-]. destruct s as [|d' s]; [done|].
    simpl in E. by destruct (split_last s) as [[??]|].
Qed.

Lemma numel_app (s1 s2 : list nat) :
  numel (s1 ++ s2) = (numel s1 * numel s2)%nat.
Proof.
  induction s1 as [|d s1 IH]; simpl; [lia|].
  fold (numel (s1 ++ s2)) (numel s1). rewrite IH. lia.
Qed.

Lemma numel_snoc (lead : list nat) (n : nat) :
  numel (lead ++ [n]) = (numel lead * n)%nat.
Proof. rewrite numel_app. simpl. lia. Qed.

Lemma length_chunks (k n : nat) (l : list R) : length (chunks k n l) = k.
Proof. revert l; induction k; intros l; simpl; [done|]. by rewrite IHk. Qed.

Lemma chunks_concat (n : nat) (rows : list (list R)) :
  Forall (fun r => length r = n) rows ->
  chunks (length rows) n (concat rows) = rows.
Proof.
  induction 1 as [|r rows Hr _ IH]; simpl; [done|].
  rewrite take_app_length' by done.
  rewrite drop_app_length' by done.
  by rewrite IH.
Qed.

Lemma chunks_map_rows {A} (f : A -> list R) (n : nat) (xs : list A) :
  (forall x, length (f x) = n) ->
  chunks (length xs) n (concat (map f xs)) = map f xs.
Proof.
  intros Hf. rewrite <- (length_map f xs). apply chunks_concat.
  apply Forall_map, Forall_forall. intros; apply Hf.
Qed.

Lemma concat_map_singleton {A} (f : A -> R) (xs : list A) :
  concat (map (fun x => [f x]) xs) = map f xs.
Proof. induction xs; simpl; congruence. Qed.

Lemma length_flat (ps : list vec) : length (flat ps) = (length ps * 2)%nat.
Proof. unfold flat. induction ps; simpl; lia. Qed.

Lemma flat_inj (ps qs : list vec) : flat ps = flat qs -> ps = qs.
Proof.
  revert qs; induction ps as [|[a b] ps IH]; intros [|[c d] qs]; try done.
  unfold flat; simpl. intros [= -> -> H]. f_equal. by apply IH.
Qed.

Lemma chunks_flat (ps : list vec) : chunks (length ps) 2 (flat ps) = map row ps.
Proof. by apply chunks_map_rows. Qed.

End Rows.

(** ** Tensor operations on batches of states *)

Section Batches.

Local Open Scope R_scope.

Lemma zip_with_map_map {A B C D} (h : B -> C -> D) (f : A -> B) (g : A -> C)
    (xs : list A) :
  zip_with h (map f xs) (map g xs) = map (fun x => h (f x) (g x)) xs.
Proof. induction xs; simpl; congruence. Qed.

Lemma chunks_column {A} (f : A -> R) (xs : list A) :
  chunks (length xs) 1 (map f xs) = map (fun x => [f x]) xs.
Proof.
  rewrite <- (concat_map_singleton f xs).
  by apply (chunks_map_rows (fun x => [f x])).
Qed.

Lemma slice_last_theta (lead : list nat) (ps : list vec) :
  length ps = numel lead ->
  slice_last 0 1 (Tensor (lead ++ [2%nat]) (flat ps))
  = Ok (Tensor (lead ++ [1%nat]) (map fst ps)).
Proof.
  intros Hlen. unfold slice_last; simpl.
  rewrite split_last_app, <- Hlen, chunks_flat, map_map; simpl.
  do 2 f_equal. apply (concat_map_singleton (@fst R R)).
Qed.

Lemma slice_last_omega (lead : list nat) (ps : list vec) :
  length ps = numel lead ->
  slice_last 1 2 (Tensor (lead ++ [2%nat]) (flat ps))
  = Ok (Tensor (lead ++ [1%nat]) (map snd ps)).
Proof.
  intros Hlen. unfold slice_last; simpl.
  rewrite split_last_app, <- Hlen, chunks_flat, map_map; simpl.
  do 2 f_equal. apply (concat_map_singleton (@snd R R)).
Qed.

Lemma cat_last_columns {A} (lead : list nat) (f g : A -> R) (xs : list A) :
  length xs = numel lead ->
  cat_last (Tensor (lead ++ [1%nat]) (map f xs))
           (Tensor (lead ++ [1%nat]) (map g xs))
  = Ok (Tensor (lead ++ [2%nat]) (flat (map (fun x => (f x, g x)) xs))).
Proof.
  intros Hlen. unfold cat_last; simpl.
  rewrite split_last_app, decide_True by done.
  rewrite <- Hlen, !chunks_column, zip_with_map_map.
  unfold flat. by rewrite map_map.
Qed.

Lemma index_last_theta (lead : list nat) (ps : list vec) :
  length ps = numel lead ->
  index_last 0 (Tensor (lead ++ [2%nat]) (flat ps))
  = Ok (Tensor lead (map fst ps)).
Proof.
  intros Hlen. unfold index_last; simpl.
  by rewrite split_last_app, <- Hlen, chunks_flat, map_map.
Qed.

Lemma index_last_omega (lead : list nat) (ps : list vec) :
  length ps = numel lead ->
  index_last 1 (Tensor (lead ++ [2%nat]) (flat ps))
  = Ok (Tensor lead (map snd ps)).
Proof.
  intros Hlen. unfold index_last; simpl.
  by rewrite split_last_app, <- Hlen, chunks_flat, map_map.
Qed.

Lemma smul_flat (c : R) (sh : list nat) (ps : list vec) :
  smul c (Tensor sh (flat ps)) = Tensor sh (flat (map (vscale c) ps)).
Proof.
  unfold smul, tmap, flat; simpl. f_equal.
  induction ps as [|[a b] ps IH]; simpl; [done|]. by rewrite IH.
Qed.

Lemma tadd_flat (sh : list nat) (ps qs : list vec) :
  length ps = length qs ->
  tadd (Tensor sh (flat ps)) (Tensor sh (flat qs))
  = Ok (Tensor sh (flat (zip_with vadd ps qs))).
Proof.
  intros Hlen. unfold tadd; simpl. rewrite decide_True by done.
  do 2 f_equal. unfold flat.
  revert qs Hlen; induction ps as [|[a b] ps IH]; intros [|[c d] qs] Hlen;
    simpl in *; try done.
  rewrite IH by lia. done.
Qed.

Lemma tadd_flat_map {A} (sh : list nat) (F G : A -> vec) (xs : list A) :
  tadd (Tensor sh (flat (map F xs))) (Tensor sh (flat (map G xs)))
  = Ok (Tensor sh (flat (map (fun x => vadd (F x) (G x)) xs))).
Proof.
  rewrite tadd_flat by (by rewrite !length_map).
  by rewrite zip_with_map_map.
Qed.

End Batches.

Section Stepper.

Local Open Scope R_scope.

Lemma bind_Ok {A B} (a : A) (f : A -> result B) : (Ok a ≫= f) = f a.
Proof. reflexivity. Qed.

Lemma getattr_number self name x :
  has_number self name x -> exists v, getattr self name = Ok v /\ number v = Ok x.
Proof. intros (v & Hv & Hn). exists v. unfold getattr. by rewrite Hv. Qed.

Lemma py_div_params self g L :
  params self g L ->
  exists vg vL, getattr self "g" = Ok vg /\ getattr self "L" = Ok vL
                /\ py_div vg vL = Ok (g / L).
Proof.
  intros [Hg HL Hnz].
  destruct (getattr_number _ _ _ Hg) as (vg & Eg & Ng).
  destruct (getattr_number _ _ _ HL) as (vL & EL & NL).
  exists vg, vL. repeat split; try done.
  unfold py_div. rewrite Ng, NL; simpl.
  by destruct (Req_EM_T L 0).
Qed.

(** [dynamics] on a batch of states is [f_spec] on every state. *)
Lemma dynamics_flat self g L (lead : list nat) (ps : list vec) (t : R) :
  params self g L ->
  length ps = numel lead ->
  dynamics self (Tensor (lead ++ [2%nat]) (flat ps)) t
  = Ok (Tensor (lead ++ [2%nat]) (flat (map (f_spec g L) ps))).
Proof.
  intros Hp Hlen. unfold dynamics.
  rewrite slice_last_theta, slice_last_omega by done.
  destruct (py_div_params _ _ _ Hp) as (vg & vL & -> & -> & Hq).
  rewrite !bind_Ok, Hq, bind_Ok.
  unfold smul, tmap; simpl. rewrite !map_map.
  by rewrite (cat_last_columns lead snd (fun p => - (g / L) * sin p.1) ps).
Qed.

Lemma tadd_smul_flat {A} (sh : list nat) (F G : A -> vec) (xs : list A) (c : R) :
  tadd (Tensor sh (flat (map F xs))) (smul c (Tensor sh (flat (map G xs))))
  = Ok (Tensor sh (flat (map (fun x => vadd (F x) (vscale c (G x))) xs))).
Proof. by rewrite smul_flat, map_map, tadd_flat_map. Qed.

Lemma tadd_smul_state (sh : list nat) (G : vec -> vec) (ps : list vec) (c : R) :
  tadd (Tensor sh (flat ps)) (smul c (Tensor sh (flat (map G ps))))
  = Ok (Tensor sh (flat (map (fun p => vadd p (vscale c (G p))) ps))).
Proof.
  rewrite <- (map_id ps) at 1. by rewrite tadd_smul_flat.
Qed.

(** [rk4_step] on a batch of states is [rk4_spec] on every state. *)
Lemma rk4_step_flat self g L (lead : list nat) (ps : list vec) (dt : R) :
  params self g L ->
  self !! "dynamics" = None ->
  length ps = numel lead ->
  rk4_step self (Tensor (lead ++ [2%nat]) (flat ps)) dt
  = Ok (Tensor (lead ++ [2%nat]) (flat (map (rk4_spec g L dt) ps))).
Proof.
  intros Hp Hd Hlen. unfold rk4_step, method. rewrite Hd, bind_Ok.
  repeat first
    [ rewrite bind_Ok
    | rewrite (dynamics_flat self g L) by (by rewrite ?length_map)
    | rewrite tadd_smul_state
    | rewrite tadd_smul_flat
    | rewrite tadd_flat_map
    | rewrite map_map ].
  do 3 f_equal. apply map_ext; intros p. unfold rk4_spec.
  replace (dt / 6.0) with (dt / 6) by lra. reflexivity.
Qed.

End Stepper.

(** ** Shapes *)

Section Shapes.

Lemma shape_smul (c : R) (t : tensor) : shape (smul c t) = shape t.
Proof. reflexivity. Qed.

Lemma tadd_same_shape (a b : tensor) :
  shape a = shape b ->
  tadd a b = Ok (Tensor (shape a) (zip_with Rplus (data a) (data b))).
Proof. intros H. unfold tadd. by rewrite decide_True. Qed.

(** [dynamics] keeps the leading axes and returns a last axis of size
    [min n 2], where [n] is the size of the last axis of its argument. *)
Lemma dynamics_shape self g L (state : tensor) (t : R) (lead : list nat) (n : nat) :
  params self g L ->
  shape state = lead ++ [n] ->
  exists out, dynamics self state t = Ok out /\ shape out = lead ++ [Nat.min n 2].
Proof.
  intros Hp Hs. unfold dynamics, slice_last.
  rewrite Hs, split_last_app, !bind_Ok.
  destruct (py_div_params _ _ _ Hp) as (vg & vL & -> & -> & Hq).
  rewrite !bind_Ok, Hq, bind_Ok.
  unfold cat_last; simpl. rewrite !split_last_app, decide_True by done.
  eexists; split; [reflexivity|]. simpl. do 2 f_equal.
  destruct n as [|[|n]]; simpl; lia.
Qed.

Lemma dynamics_shape2 self g L (state : tensor) (t : R) (lead : list nat) :
  params self g L ->
  shape state = lead ++ [2%nat] ->
  exists out, dynamics self state t = Ok out /\ shape out = shape state.
Proof.
  intros Hp Hs. destruct (dynamics_shape self g L state t lead 2 Hp Hs)
    as (out & E & Hout).
  exists out. by rewrite Hs.
Qed.

Lemma rk4_step_shape2 self g L (state : tensor) (dt : R) (lead : list nat) :
  params self g L ->
  self !! "dynamics" = None ->
  shape state = lead ++ [2%nat] ->
  exists out, rk4_step self state dt = Ok out /\ shape out = shape state.
Proof.
  intros Hp Hd Hs. unfold rk4_step, method. rewrite Hd, bind_Ok.
  assert (Hdyn : forall st, shape st = shape state ->
            exists k, dynamics self st 0 = Ok k /\ shape k = shape state).
  { intros st Hst. rewrite <- Hst.
    apply (dynamics_shape2 self g L st 0 lead Hp). congruence. }
  destruct (Hdyn state eq_refl) as (k1 & -> & H1).
  rewrite bind_Ok, (tadd_same_shape state), bind_Ok by (simpl; congruence).
  destruct (Hdyn (Tensor (shape state)
              (zip_with Rplus (data state) (data (smul (0.5 * dt) k1))))
              eq_refl) as (k2 & -> & H2).
  rewrite bind_Ok, (tadd_same_shape state), bind_Ok by (simpl; congruence).
  destruct (Hdyn (Tensor (shape state)
              (zip_with Rplus (data state) (data (smul (0.5 * dt) k2))))
              eq_refl) as (k3 & -> & H3).
  rewrite bind_Ok, (tadd_same_shape state), bind_Ok by (simpl; congruence).
  destruct (Hdyn (Tensor (shape state)
              (zip_with Rplus (data state) (data (smul dt k3))))
              eq_refl) as (k4 & -> & H4).
  rewrite bind_Ok.
  rewrite (tadd_same_shape k1), bind_Ok by (simpl; congruence).
  rewrite (tadd_same_shape (Tensor _ _) (smul 2 k3)), bind_Ok
    by (simpl; congruence).
  rewrite (tadd_same_shape (Tensor _ _) k4), bind_Ok by (simpl; congruence).
  rewrite (tadd_same_shape state) by (simpl; congruence).
  eexists; split; reflexivity.
Qed.

(** Every list of even length lists the elements of a batch of states. *)
Lemma flat_surj (k : nat) (l : list R) :
  length l = (k * 2)%nat -> exists ps, l = flat ps /\ length ps = k.
Proof.
  revert l; induction k as [|k IH]; intros l Hl.
  - exists []. by destruct l.
  - destruct l as [|a [|b l]]; simpl in Hl; try lia.
    destruct (IH l) as (ps & -> & Hps); [lia|].
    exists ((a, b) :: ps). split; [reflexivity|simpl; lia].
Qed.

Lemma wf_batch (t : tensor) (lead : list nat) :
  shape t = lead ++ [2%nat] -> wf t ->
  exists ps, t = Tensor (lead ++ [2%nat]) (flat ps) /\ length ps = numel lead.
Proof.
  destruct t as [sh l]; unfold wf; simpl. intros -> Hl.
  rewrite numel_snoc in Hl.
  destruct (flat_surj _ _ Hl) as (ps & -> & Hps). by exists ps.
Qed.

Lemma wf_flat (lead : list nat) (ps : list vec) :
  length ps = numel lead -> wf (Tensor (lead ++ [2%nat]) (flat ps)).
Proof. intros H. unfold wf; simpl. rewrite length_flat, numel_snoc. lia. Qed.

End Shapes.

(** ** Entries of a trajectory *)

Section Trajectory.

Lemma length_concat_uniform (m : nat) (blocks : list (list R)) :
  Forall (fun b => length b = m) blocks ->
  length (concat blocks) = (length blocks * m)%nat.
Proof. induction 1; simpl; [done|]. rewrite length_app. lia. Qed.

Lemma zeros_blocks (d : nat) (s : list nat) :
  zeros (d :: s) = Tensor (d :: s) (concat (replicate d (replicate (numel s) 0%R))).
Proof.
  unfold zeros. f_equal. simpl. fold (numel s).
  induction d; simpl; [done|]. by rewrite replicate_add, IHd.
Qed.

Lemma setitem0_middle (d : nat) (s : list nat) (pre post : list (list R))
    (b : list R) (st : tensor) :
  Forall (fun b => length b = numel s) pre ->
  length b = numel s ->
  (length pre < d)%nat ->
  shape st = s ->
  setitem0 (Tensor (d :: s) (concat (pre ++ b :: post))) (length pre) st
  = Ok (Tensor (d :: s) (concat (pre ++ data st :: post))).
Proof.
  intros Hpre Hb Hd Hs. unfold setitem0; simpl.
  destruct (Nat.ltb_spec (length pre) d); [|lia].
  rewrite decide_True by done. do 2 f_equal.
  pose proof (length_concat_uniform _ _ Hpre) as Hlen.
  rewrite !concat_app; simpl.
  rewrite take_app_length' by done.
  rewrite (app_assoc (concat pre) b), drop_app_length'; [done|].
  rewrite length_app. lia.
Qed.

Lemma getitem0_middle (d : nat) (s : list nat) (pre post : list (list R))
    (b : list R) :
  Forall (fun b => length b = numel s) pre ->
  length b = numel s ->
  (length pre < d)%nat ->
  getitem0 (Tensor (d :: s) (concat (pre ++ b :: post))) (length pre)
  = Ok (Tensor s b).
Proof.
  intros Hpre Hb Hd. unfold getitem0; simpl.
  destruct (Nat.ltb_spec (length pre) d); [|lia].
  do 2 f_equal.
  pose proof (length_concat_uniform _ _ Hpre) as Hlen.
  rewrite concat_app; simpl.
  rewrite drop_app_length' by done.
  by rewrite take_app_length'.
Qed.

(** Reading entry [i] of a trajectory stored block by block. *)
Lemma getitem0_blocks (d : nat) (s : list nat) (blocks : list (list R))
    (i : nat) (b : list R) :
  Forall (fun b => length b = numel s) blocks ->
  length blocks = d ->
  blocks !! i = Some b ->
  getitem0 (Tensor (d :: s) (concat blocks)) i = Ok (Tensor s b).
Proof.
  intros Hall Hd Hi.
  pose proof (lookup_lt_Some _ _ _ Hi) as Hlt.
  rewrite <- (take_drop_middle _ _ _ Hi) in Hall |- *.
  apply Forall_app in Hall as [Hpre Hpost].
  apply Forall_cons in Hpost as [Hb _].
  replace i with (length (take i blocks)) at 3
    by (rewrite length_take; lia).
  apply getitem0_middle; try done.
  rewrite length_take; lia.
Qed.

Lemma py_int_floor (x : R) (n : nat) :
  (INR n <= x < INR n + 1)%R -> py_int x = Z.of_nat n.
Proof.
  intros [Hlo Hhi]. unfold py_int.
  pose proof (pos_INR n).
  destruct (Rle_dec 0 x) as [_|Hneg]; [|lra].
  symmetry. apply Int_part_spec. rewrite <- INR_IZR_INZ. lra.
Qed.

End Trajectory.

(** ** The integration loop *)

Section Driver.

Local Open Scope R_scope.

Variables (self : PendulumSimulator) (g L dt : R).
Hypothesis Hready : ready self g L.

Lemma length_rk4_iter (i : nat) (ps : list vec) :
  length (rk4_iter g L dt i ps) = length ps.
Proof.
  unfold rk4_iter. induction i; simpl; [done|]. by rewrite length_map.
Qed.

Lemma rk4_iter_succ_r (i : nat) (ps : list vec) :
  rk4_iter g L dt (S i) ps = rk4_iter g L dt i (map (rk4_spec g L dt) ps).
Proof. unfold rk4_iter. apply Nat.iter_succ_r. Qed.

(** The loop started at index [k] with [j] steps to go: the entries up to
    [k] are kept, and entry [k + i] receives the state after [i] steps. *)
Lemma simulate_loop_blocks (lead : list nat) (d : nat) :
  forall (j k : nat) (pre : list (list R)) (z : list R) (ps : list vec),
    length ps = numel lead ->
    Forall (fun b => length b = numel (lead ++ [2%nat])) pre ->
    length z = numel (lead ++ [2%nat]) ->
    length pre = S k ->
    (k + j < d)%nat ->
    simulate_loop self dt (seq k j) (Tensor (lead ++ [2%nat]) (flat ps))
      (Tensor (d :: lead ++ [2%nat]) (concat (pre ++ replicate j z)))
    = Ok (Tensor (lead ++ [2%nat]) (flat (rk4_iter g L dt j ps)),
          Tensor (d :: lead ++ [2%nat])
            (concat (pre ++ map (fun i => flat (rk4_iter g L dt i ps)) (seq 1 j)))).
Proof.
  induction j as [|j IH]; intros k pre z ps Hps Hpre Hz Hk Hd; simpl.
  - reflexivity.
  - unfold method. rewrite (ready_rk4_step _ _ _ Hready), bind_Ok.
    rewrite (rk4_step_flat self g L) by (done || apply Hready).
    rewrite bind_Ok.
    replace (k + 1)%nat with (length pre) by lia.
    rewrite setitem0_middle; [|done|done|lia|done].
    rewrite bind_Ok; simpl data.
    rewrite (cons_middle _ pre), app_assoc.
    rewrite (IH (S k) _ z (map (rk4_spec g L dt) ps)).
    + rewrite <- rk4_iter_succ_r. do 3 f_equal.
      rewrite <- app_assoc. simpl. do 2 f_equal.
      rewrite <- (List.seq_shift j 1), map_map. f_equal.
      apply map_ext. intros i. by rewrite rk4_iter_succ_r.
    + by rewrite length_map.
    + apply Forall_app; split; [done|].
      apply Forall_singleton.
      rewrite length_flat, length_map, numel_snoc. lia.
    + done.
    + rewrite length_app; simpl. lia.
    + lia.
Qed.

(** [simulate] on a tensor initial state, [n] being the number of steps. *)
Lemma simulate_tensor (init : tensor) (lead : list nat) (ps : list vec)
    (duration : R) (return_tensor : bool) (n : nat) :
  batch_promote init = Tensor (lead ++ [2%nat]) (flat ps) ->
  length ps = numel lead ->
  dt <> 0 ->
  py_int (duration / dt) = Z.of_nat n ->
  simulate self (FromTensor init) duration dt return_tensor
  = Ok (as_array return_tensor (linspace 0 duration (S n)),
        as_array return_tensor (trajectory_of g L dt lead n ps)).
Proof.
  intros Hinit Hps Hdt Hn. unfold simulate, simulate_with. rewrite bind_Ok.
  change (if (dim init =? 1)%nat then unsqueeze0 init else init)
    with (batch_promote init).
  rewrite Hinit. destruct (Req_EM_T dt 0) as [|_]; [done|].
  rewrite bind_Ok, Hn.
  destruct (ready_device _ _ _ Hready) as [dev Hdev].
  unfold getattr. rewrite Hdev, !bind_Ok.
  unfold torch_zeros, torch_linspace.
  destruct (Z.ltb_spec (Z.of_nat n + 1) 0); [lia|].
  replace (Z.to_nat (Z.of_nat n + 1)) with (S n) by lia.
  rewrite !bind_Ok, Nat2Z.id. simpl shape.
  rewrite zeros_blocks. simpl replicate.
  set (z := replicate (numel (lead ++ [2%nat])) 0).
  assert (E := simulate_loop_blocks lead (S n) n 0 [z] z ps Hps).
  cbn [app] in E. rewrite E.
  - by destruct return_tensor.
  - apply Forall_singleton, length_replicate.
  - apply length_replicate.
  - done.
  - lia.
Qed.

(** The same for every way of taking the quotient, [n] being the number of
    steps that comes of it; the conversion to numpy goes through when the
    initial state does not require grad or no step was written. *)
Lemma simulate_with_tensor (quot : R -> R -> R) (requires_grad : bool)
    (init : tensor) (lead : list nat) (ps : list vec)
    (duration : R) (return_tensor : bool) (n : nat) :
  batch_promote init = Tensor (lead ++ [2%nat]) (flat ps) ->
  length ps = numel lead ->
  dt <> 0 ->
  py_int (quot duration dt) = Z.of_nat n ->
  requires_grad = false \/ return_tensor = true \/ n = 0%nat ->
  simulate_with quot requires_grad self (FromTensor init) duration dt
    return_tensor
  = Ok (as_array return_tensor (linspace 0 duration (S n)),
        as_array return_tensor (trajectory_of g L dt lead n ps)).
Proof.
  intros Hinit Hps Hdt Hn Hnumpy. unfold simulate_with. rewrite bind_Ok.
  change (if (dim init =? 1)%nat then unsqueeze0 init else init)
    with (batch_promote init).
  rewrite Hinit. destruct (Req_EM_T dt 0) as [|_]; [done|].
  rewrite bind_Ok, Hn.
  destruct (ready_device _ _ _ Hready) as [dev Hdev].
  unfold getattr. rewrite Hdev, !bind_Ok.
  unfold torch_zeros, torch_linspace.
  destruct (Z.ltb_spec (Z.of_nat n + 1) 0); [lia|].
  replace (Z.to_nat (Z.of_nat n + 1)) with (S n) by lia.
  rewrite !bind_Ok, Nat2Z.id. simpl shape.
  rewrite zeros_blocks. simpl replicate.
  set (z := replicate (numel (lead ++ [2%nat])) 0).
  assert (E := simulate_loop_blocks lead (S n) n 0 [z] z ps Hps).
  cbn [app] in E. rewrite E.
  - rewrite bind_Ok. destruct return_tensor; [done|].
    destruct Hnumpy as [->|[Hrt| ->]];
      [done|discriminate Hrt|by destruct requires_grad].
  - apply Forall_singleton, length_replicate.
  - apply length_replicate.
  - done.
  - lia.
Qed.


End Driver.

(** ** The freshly constructed simulator *)

Section Construction.

Local Open Scope R_scope.

Lemma init_ready (device : pyval) : ready (__init__ device) 9.81 1.
Proof.
  unfold __init__. split; [split|..].
  - exists (PyFloat 9.81). by simplify_map_eq.
  - exists (PyFloat 1.0). simplify_map_eq. split; [done|]. simpl. f_equal. lra.
  - lra.
  - by simplify_map_eq.
  - by simplify_map_eq.
  - exists device. by simplify_map_eq.
Qed.

Lemma init_hasattr (device : pyval) (key : string) :
  key ∈ ["device"; "g"; "L"; "m"] -> is_Some (__init__ device !! key).
Proof.
  unfold __init__. rewrite !elem_of_cons, elem_of_nil.
  intros [->|[->|[->|[->|[]]]]]; simplify_map_eq; eauto.
Qed.

End Construction.

(** ** Entries of the trajectory [simulate] returns *)

Section Entries.

Local Open Scope R_scope.

Lemma trajectory_blocks_uniform (g L dt : R) (lead : list nat) (n : nat)
    (ps : list vec) :
  length ps = numel lead ->
  Forall (fun b => length b = numel (lead ++ [2%nat]))
    (replicate (numel (lead ++ [2%nat])) 0
     :: map (fun i => flat (rk4_iter g L dt i ps)) (seq 1 n)).
Proof.
  intros Hps. apply Forall_cons; split; [apply length_replicate|].
  apply Forall_map, Forall_forall. intros i _. simpl.
  rewrite length_flat, length_rk4_iter, numel_snoc. lia.
Qed.

(** Entry 0 is the block of zeros the trajectory was allocated with. *)
Lemma trajectory_of_first (g L dt : R) (lead : list nat) (n : nat) (ps : list vec) :
  length ps = numel lead ->
  getitem0 (trajectory_of g L dt lead n ps) 0 = Ok (zeros (lead ++ [2%nat])).
Proof.
  intros Hps. unfold trajectory_of.
  apply getitem0_blocks; [by apply trajectory_blocks_uniform| |done].
  simpl. by rewrite length_map, length_seq.
Qed.

(** Entry [i], for [1 <= i <= n], is the batch after [i] steps. *)
Lemma trajectory_of_later (g L dt : R) (lead : list nat) (n : nat) (ps : list vec)
    (i : nat) :
  length ps = numel lead ->
  (1 <= i <= n)%nat ->
  getitem0 (trajectory_of g L dt lead n ps) i
  = Ok (Tensor (lead ++ [2%nat]) (flat (rk4_iter g L dt i ps))).
Proof.
  intros Hps Hi. unfold trajectory_of.
  apply getitem0_blocks; [by apply trajectory_blocks_uniform| |].
  - simpl. by rewrite length_map, length_seq.
  - destruct i as [|i]; [lia|]. simpl.
    rewrite list_lookup_fmap, lookup_seq_lt by lia. done.
Qed.

Lemma trajectory_of_out_of_range (g L dt : R) (lead : list nat) (n : nat)
    (ps : list vec) (i : nat) :
  (n < i)%nat -> getitem0 (trajectory_of g L dt lead n ps) i = Raise IndexError.
Proof.
  intros Hi. unfold getitem0, trajectory_of; simpl.
  destruct (Nat.ltb_spec i (S n)); [lia|done].
Qed.

(** Every real number that is not negative has a floor. *)
Lemma floor_exists (x : R) : 0 <= x -> exists n : nat, INR n <= x < INR n + 1.
Proof.
  intros Hx. destruct (base_Int_part x) as [Hlo Hhi].
  assert (0 <= Int_part x)%Z as Hz.
  { apply Z.lt_succ_r, lt_IZR. rewrite succ_IZR. lra. }
  exists (Z.to_nat (Int_part x)).
  rewrite INR_IZR_INZ, Z2Nat.id by done. lra.
Qed.

Lemma steps_exist (duration dt : R) :
  0 < duration -> 0 < dt -> exists n : nat, INR n <= duration / dt < INR n + 1.
Proof.
  intros Hd Hdt. apply floor_exists.
  apply Rlt_le, Rdiv_lt_0_compat; lra.
Qed.

End Entries.

(** ** The stepper and the diagnostics *)

Section StepperClaims.

Local Open Scope R_scope.

Lemma batch_promote_states (init : tensor) :
  state_shaped init -> wf init ->
  exists lead ps,
    batch_promote init = Tensor (lead ++ [2%nat]) (flat ps)
    /\ length ps = numel lead.
Proof.
  intros [lead Hs] Hwf. unfold batch_promote.
  destruct (dim init =? 1)%nat.
  - destruct (wf_batch (unsqueeze0 init) (1%nat :: lead)) as (ps & E & Hps).
    + simpl. by rewrite Hs.
    + unfold wf in *; simpl. fold (numel (shape init)). lia.
    + by exists (1%nat :: lead), ps.
  - destruct (wf_batch init lead Hs Hwf) as (ps & E & Hps).
    by exists lead, ps.
Qed.

(** C5.  On a batch of states [rk4_step] returns, for every state of the
    batch, [state + (dt/6) * (k1 + 2 k2 + 2 k3 + k4)] with the four slopes of
    the classical Runge-Kutta scheme, where the slope function maps
    [(theta, omega)] to [(omega, -(g/L) sin theta)]; [dynamics] computes that
    slope function and its result does not depend on its time argument. *)
Theorem rk4_step_classical_formula (self : PendulumSimulator) (g L dt : R)
    (lead : list nat) (ps : list vec) :
  params self g L ->
  self !! "dynamics" = None ->
  length ps = numel lead ->
  rk4_step self (Tensor (lead ++ [2%nat]) (flat ps)) dt
  = Ok (Tensor (lead ++ [2%nat]) (flat (map (rk4_spec g L dt) ps)))
  /\ forall t : R,
       dynamics self (Tensor (lead ++ [2%nat]) (flat ps)) t
       = Ok (Tensor (lead ++ [2%nat]) (flat (map (f_spec g L) ps))).
Proof.
  intros Hp Hd Hlen. split.
  - by apply rk4_step_flat.
  - intros t. by apply dynamics_flat.
Qed.

(** The hypotheses of C5 hold of the default pendulum and the single state
    [(0.1, 0)], where the theorem gives the formula. *)
Lemma rk4_step_classical_formula_witness :
  params (__init__ (PyStr "mps")) 9.81 1
  /\ __init__ (PyStr "mps") !! "dynamics" = None
  /\ length [(0.1, 0)] = numel [1%nat]
  /\ rk4_step (__init__ (PyStr "mps")) (Tensor [1%nat; 2%nat] [0.1; 0]) 0.01
     = Ok (Tensor [1%nat; 2%nat] (flat [rk4_spec 9.81 1 0.01 (0.1, 0)]))
  /\ forall t : R,
       dynamics (__init__ (PyStr "mps")) (Tensor [1%nat; 2%nat] [0.1; 0]) t
       = Ok (Tensor [1%nat; 2%nat] (flat [f_spec 9.81 1 (0.1, 0)])).
Proof.
  assert (Hp : params (__init__ (PyStr "mps")) 9.81 1) by apply init_ready.
  assert (Hd : __init__ (PyStr "mps") !! "dynamics" = None) by apply init_ready.
  split; [exact Hp|]. split; [exact Hd|]. split; [reflexivity|].
  exact (rk4_step_classical_formula (__init__ (PyStr "mps")) 9.81 1 0.01
           [1%nat] [(0.1, 0)] Hp Hd eq_refl).
Defined.

(** C8.  On a batch of states of any shape [compute_cartesian_coords]
    returns [x = L sin theta] and [y = L cos theta] for every state, so each
    pair of coordinates satisfies [x^2 + y^2 = L^2]. *)
Theorem cartesian_coords_on_circle (self : PendulumSimulator) (L : R)
    (lead : list nat) (ps : list vec) :
  has_number self "L" L ->
  length ps = numel lead ->
  exists x y : tensor,
    compute_cartesian_coords self (Tensor (lead ++ [2%nat]) (flat ps)) = Ok (x, y)
    /\ x = Tensor lead (map (fun p => L * sin p.1) ps)
    /\ y = Tensor lead (map (fun p => L * cos p.1) ps)
    /\ forall (i : nat) (xi yi : R),
         data x !! i = Some xi -> data y !! i = Some yi ->
         xi ^ 2 + yi ^ 2 = L ^ 2.
Proof.
  intros HL Hlen.
  destruct (getattr_number _ _ _ HL) as (vL & EL & NL).
  unfold compute_cartesian_coords, py_mul_tensor.
  repeat first
    [ rewrite bind_Ok | rewrite EL | rewrite NL
    | rewrite index_last_theta by done ].
  unfold smul, tmap; cbn [shape data]. rewrite !map_map.
  eexists _, _. split; [reflexivity|].
  split; [reflexivity|]. split; [reflexivity|].
  cbn [data]. intros i xi yi Hx Hy.
  rewrite list_lookup_fmap in Hx, Hy.
  apply fmap_Some in Hx as (p & Hp & ->).
  rewrite Hp in Hy. injection Hy as <-.
  replace ((L * sin p.1) ^ 2 + (L * cos p.1) ^ 2)
    with (L ^ 2 * ((sin p.1)² + (cos p.1)²)) by (unfold Rsqr; ring).
  rewrite sin2_cos2. ring.
Qed.

(** The hypotheses of C8 hold of the default pendulum and the single state
    [(0.1, 0)], where the theorem gives the coordinates. *)
Lemma cartesian_coords_on_circle_witness :
  has_number (__init__ (PyStr "mps")) "L" 1
  /\ length [(0.1, 0)] = numel [1%nat]
  /\ exists x y : tensor,
       compute_cartesian_coords (__init__ (PyStr "mps"))
         (Tensor [1%nat; 2%nat] [0.1; 0]) = Ok (x, y)
       /\ x = Tensor [1%nat] [1 * sin 0.1]
       /\ y = Tensor [1%nat] [1 * cos 0.1]
       /\ forall (i : nat) (xi yi : R),
            data x !! i = Some xi -> data y !! i = Some yi ->
            xi ^ 2 + yi ^ 2 = 1 ^ 2.
Proof.
  assert (HL : has_number (__init__ (PyStr "mps")) "L" 1) by apply init_ready.
  split; [exact HL|]. split; [reflexivity|].
  exact (cartesian_coords_on_circle (__init__ (PyStr "mps")) 1
           [1%nat] [(0.1, 0)] HL eq_refl).
Defined.

End StepperClaims.

(** ** The trajectory driver *)

Section DriverClaims.

Local Open Scope R_scope.

Lemma array_tensor_as_array (return_tensor : bool) (t : tensor) :
  array_tensor (as_array return_tensor t) = t.
Proof. by destruct return_tensor. Qed.

(** What [simulate] returns on a batch of states, for positive duration
    and step. *)
Lemma simulate_states (self : PendulumSimulator) (g L duration dt : R)
    (init : tensor) (return_tensor : bool) :
  ready self g L ->
  state_shaped init -> wf init ->
  0 < duration -> 0 < dt ->
  exists (n : nat) (lead : list nat) (ps : list vec),
    INR n <= duration / dt < INR n + 1
    /\ batch_promote init = Tensor (lead ++ [2%nat]) (flat ps)
    /\ length ps = numel lead
    /\ simulate self (FromTensor init) duration dt return_tensor
       = Ok (as_array return_tensor (linspace 0 duration (S n)),
             as_array return_tensor (trajectory_of g L dt lead n ps)).
Proof.
  intros Hready Hshape Hwf Hduration Hdt.
  destruct (steps_exist duration dt Hduration Hdt) as [n Hn].
  destruct (batch_promote_states init Hshape Hwf) as (lead & ps & Hinit & Hps).
  exists n, lead, ps. repeat split; try done; try apply Hn.
  apply simulate_tensor; try done; [lra|]. by apply py_int_floor.
Qed.

(** C10.  On a tensor whose last axis has size 2, whatever its leading
    axes, [dynamics] and [rk4_step] return a tensor of the same shape; and
    every entry of the trajectory [simulate] returns has the shape of the
    batch-promoted initial state. *)
Theorem shapes_are_preserved (self : PendulumSimulator) (g L : R)
    (state init : tensor) (duration dt t : R) (return_tensor : bool) :
  ready self g L ->
  state_shaped state ->
  state_shaped init -> wf init ->
  0 < duration -> 0 < dt ->
  (exists out, dynamics self state t = Ok out /\ shape out = shape state)
  /\ (exists out, rk4_step self state dt = Ok out /\ shape out = shape state)
  /\ exists (times trajectory : array) (n : nat),
       simulate self (FromTensor init) duration dt return_tensor
       = Ok (times, trajectory)
       /\ len (array_tensor trajectory) = Ok (S n)
       /\ forall i : nat, (i <= n)%nat ->
            exists entry : tensor,
              getitem0 (array_tensor trajectory) i = Ok entry
              /\ shape entry = shape (batch_promote init).
Proof.
  intros Hready [lead Hstate] Hshape Hwf Hduration Hdt.
  split; [|split].
  - eapply dynamics_shape2; [apply Hready|exact Hstate].
  - eapply rk4_step_shape2; [apply Hready|apply Hready|exact Hstate].
  - destruct (simulate_states self g L duration dt init return_tensor)
      as (n & lead' & ps & _ & Hinit & Hps & Hsim); try done.
    eexists _, _, n. split; [exact Hsim|].
    rewrite array_tensor_as_array, Hinit. split; [reflexivity|].
    intros i Hi. destruct i as [|i].
    + eexists. split; [by apply trajectory_of_first|reflexivity].
    + eexists. split; [apply trajectory_of_later; [done|lia]|reflexivity].
Qed.

(** The hypotheses of C10 hold of the default pendulum, the single state
    [[0.1, 0]] and one second in steps of 0.01. *)
Lemma shapes_are_preserved_witness :
  ready (__init__ (PyStr "mps")) 9.81 1
  /\ state_shaped (Tensor [2%nat] [0.1; 0])
  /\ wf (Tensor [2%nat] [0.1; 0])
  /\ 0 < 1 /\ 0 < 0.01
  /\ (exists out,
        dynamics (__init__ (PyStr "mps")) (Tensor [2%nat] [0.1; 0]) 0 = Ok out
        /\ shape out = [2%nat])
  /\ (exists out,
        rk4_step (__init__ (PyStr "mps")) (Tensor [2%nat] [0.1; 0]) 0.01 = Ok out
        /\ shape out = [2%nat])
  /\ exists (times trajectory : array) (n : nat),
       simulate (__init__ (PyStr "mps")) (FromTensor (Tensor [2%nat] [0.1; 0]))
         1 0.01 true
       = Ok (times, trajectory)
       /\ len (array_tensor trajectory) = Ok (S n)
       /\ forall i : nat, (i <= n)%nat ->
            exists entry : tensor,
              getitem0 (array_tensor trajectory) i = Ok entry
              /\ shape entry = [1%nat; 2%nat].
Proof.
  assert (Hready := init_ready (PyStr "mps")).
  assert (Hshape : state_shaped (Tensor [2%nat] [0.1; 0])) by (by exists []).
  assert (Hwf : wf (Tensor [2%nat] [0.1; 0])) by reflexivity.
  assert (Hduration : 0 < 1) by lra.
  assert (Hdt : 0 < 0.01) by lra.
  repeat (split; [assumption|]).
  exact (shapes_are_preserved (__init__ (PyStr "mps")) 9.81 1
           (Tensor [2%nat] [0.1; 0]) (Tensor [2%nat] [0.1; 0]) 1 0.01 0 true
           Hready Hshape Hshape Hwf Hduration Hdt).
Defined.

End DriverClaims.

(** ** Sample times *)

Section Times.

Local Open Scope R_scope.

Lemma linspace_single (a b : R) : data (linspace a b 1) = [a].
Proof. reflexivity. Qed.

Lemma length_linspace (a b : R) (steps : nat) :
  length (data (linspace a b steps)) = steps.
Proof.
  destruct steps as [|[|n]]; try done.
  unfold linspace; cbn [data]. by rewrite length_map, length_seq.
Qed.

Lemma linspace_lookup (a b : R) (n i : nat) :
  (1 <= n)%nat -> (i <= n)%nat ->
  data (linspace a b (S n)) !! i = Some (a + INR i * ((b - a) / INR n)).
Proof.
  intros Hn Hi. destruct n as [|n]; [lia|].
  unfold linspace; cbn [data].
  rewrite list_lookup_fmap, lookup_seq_lt by lia. done.
Qed.

Lemma linspace_last (a b : R) (n : nat) :
  (1 <= n)%nat -> last (data (linspace a b (S n))) = Some b.
Proof.
  intros Hn. rewrite last_lookup, length_linspace. cbn [pred].
  rewrite linspace_lookup by lia. f_equal.
  assert (INR n <> 0) by (apply not_0_INR; lia). by field.
Qed.

End Times.

Section TimesClaims.

Local Open Scope R_scope.

Lemma rounded_division_exact : rounded_division Rdiv.
Proof. by split. Qed.

(** Where the exact quotient is a whole number no rounding happens, and
    [simulate] is the run of the code whatever the rounding elsewhere. *)
Lemma simulate_with_whole_quotient (quot : R -> R -> R)
    (self : PendulumSimulator) (initial_state : state_arg)
    (duration dt : R) (return_tensor : bool) (k : Z) :
  rounded_division quot ->
  (Z.abs k <= 2 ^ 53)%Z ->
  duration / dt = IZR k ->
  simulate_with quot false self initial_state duration dt return_tensor
  = simulate self initial_state duration dt return_tensor.
Proof.
  intros [Habove Hbelow] Hk Hq.
  assert (quot duration dt = duration / dt) as Heq.
  { apply Rle_antisym.
    - rewrite Hq. apply Hbelow; [done|lra].
    - rewrite Hq. apply Habove; [done|lra]. }
  unfold simulate, simulate_with. by rewrite Heq.
Qed.

Lemma three_tenths_exact_quotient : 2 < float_0_3 / float_0_1 < 3.
Proof. unfold float_0_3, float_0_1. split; lra. Qed.

(** The float quotient of 0.3 and 0.1 lies on the side of every integer
    where the exact quotient of the two floats lies. *)
Lemma rounded_division_three_tenths : rounded_division quot_three_tenths.
Proof.
  pose proof three_tenths_exact_quotient as [Hlo Hhi].
  split; intros a b k _ Hq; unfold quot_three_tenths;
    destruct (Req_EM_T a float_0_3) as [->|]; try done;
    destruct (Req_EM_T b float_0_1) as [->|]; try done;
    unfold float_0_3_div_0_1.
  - assert (k < 3)%Z as Hk by (apply lt_IZR; lra).
    assert (IZR k <= 2) by (apply IZR_le; lia). lra.
  - assert (2 < k)%Z as Hk by (apply lt_IZR; lra).
    assert (3 <= IZR k) by (apply IZR_le; lia). lra.
Qed.

Lemma py_int_three_tenths :
  py_int (quot_three_tenths float_0_3 float_0_1) = Z.of_nat 2.
Proof.
  apply py_int_floor. unfold quot_three_tenths.
  destruct (Req_EM_T float_0_3 float_0_3) as [_|Hne]; [|by destruct Hne].
  destruct (Req_EM_T float_0_1 float_0_1) as [_|Hne]; [|by destruct Hne].
  unfold float_0_3_div_0_1. rewrite INR_IZR_INZ.
  change (Z.of_nat 2) with 2%Z. lra.
Qed.

Lemma py_int_nonneg (x : R) :
  0 <= x -> exists n : nat, py_int x = Z.of_nat n /\ INR n <= x < INR n + 1.
Proof.
  intros Hx. destruct (floor_exists x Hx) as [n Hn].
  exists n. split; [by apply py_int_floor|done].
Qed.

(** The number of steps is within one of the exact quotient. *)
Lemma steps_within_one (quot : R -> R -> R) (a b : R) (n : nat) :
  rounded_division quot ->
  INR n <= quot a b < INR n + 1 ->
  (Z.of_nat n < 2 ^ 53)%Z ->
  INR n - 1 < a / b < INR n + 1.
Proof.
  intros [Habove Hbelow] [Hlo Hhi] Hn.
  change (2 ^ 53)%Z with 9007199254740992%Z in *.
  rewrite INR_IZR_INZ in *. split; apply Rnot_le_lt; intros Hq.
  - pose proof (Hbelow a b (Z.of_nat n - 1)%Z) as H.
    rewrite minus_IZR in H. specialize (H ltac:(lia) Hq). lra.
  - pose proof (Habove a b (Z.of_nat n + 1)%Z) as H.
    rewrite plus_IZR in H. specialize (H ltac:(lia) Hq). lra.
Qed.

(** No step is taken only when the duration is shorter than the step. *)
Lemma no_step_short_duration (quot : R -> R -> R) (a b : R) :
  rounded_division quot -> 0 < b -> quot a b < 1 -> a < b.
Proof.
  intros [Habove _] Hb Hq. apply Rnot_le_lt. intros Hab.
  assert (1 <= a / b) as H1.
  { assert (a / b * b = a) by (field; lra).
    apply Rnot_lt_le. intros Hlt. nra. }
  pose proof (Habove a b 1%Z ltac:(done) H1). lra.
Qed.

(** What [simulate] returns on a batch of states for positive duration and
    step, whatever the rounding of the quotient. *)
Lemma simulate_with_states (quot : R -> R -> R) (requires_grad : bool)
    (self : PendulumSimulator) (g L duration dt : R)
    (init : tensor) (return_tensor : bool) :
  rounded_division quot ->
  ready self g L ->
  state_shaped init -> wf init ->
  0 < duration -> 0 < dt ->
  requires_grad = false \/ return_tensor = true ->
  exists (n : nat) (lead : list nat) (ps : list vec),
    py_int (quot duration dt) = Z.of_nat n
    /\ INR n <= quot duration dt < INR n + 1
    /\ batch_promote init = Tensor (lead ++ [2%nat]) (flat ps)
    /\ length ps = numel lead
    /\ simulate_with quot requires_grad self (FromTensor init) duration dt
         return_tensor
       = Ok (as_array return_tensor (linspace 0 duration (S n)),
             as_array return_tensor (trajectory_of g L dt lead n ps)).
Proof.
  intros Hquot Hready Hshape Hwf Hduration Hdt Hnumpy.
  assert (0 <= quot duration dt) as Hq.
  { apply (quot_above quot Hquot duration dt 0%Z); [done|].
    apply Rlt_le, Rdiv_lt_0_compat; lra. }
  destruct (py_int_nonneg _ Hq) as (n & Hn & Hfloor).
  destruct (batch_promote_states init Hshape Hwf) as (lead & ps & Hinit & Hps).
  exists n, lead, ps. repeat split; try done; try apply Hfloor.
  apply simulate_with_tensor; try done; [lra|tauto].
Qed.

(** C6, as the code has it.  For positive duration and step let [n] be
    the number of steps, [int] of the quotient [duration / dt] as the floats
    give it: [n] is within one of the exact quotient, not always its floor.
    [simulate] returns [n + 1] times and a trajectory of [n + 1] entries;
    the first time is 0 and the last one is within [dt] of the duration.
    When [n >= 1] the times are [i * duration / n], the last one being the
    duration itself; when [n = 0], which needs [duration < dt], the only
    time is 0. *)
Theorem simulate_sample_times (quot : R -> R -> R) (requires_grad : bool)
    (self : PendulumSimulator) (g L duration dt : R)
    (init : tensor) (return_tensor : bool) :
  rounded_division quot ->
  ready self g L ->
  state_shaped init -> wf init ->
  0 < duration -> 0 < dt ->
  requires_grad = false \/ return_tensor = true ->
  exists (times trajectory : array) (n : nat),
    simulate_with quot requires_grad self (FromTensor init) duration dt
      return_tensor
    = Ok (times, trajectory)
    /\ py_int (quot duration dt) = Z.of_nat n
    /\ ((Z.of_nat n < 2 ^ 53)%Z -> INR n - 1 < duration / dt < INR n + 1)
    /\ len (array_tensor times) = Ok (S n)
    /\ len (array_tensor trajectory) = Ok (S n)
    /\ length (data (array_tensor times)) = S n
    /\ data (array_tensor times) !! 0%nat = Some 0
    /\ (exists t_last, last (data (array_tensor times)) = Some t_last
                       /\ Rabs (t_last - duration) <= dt)
    /\ (n = 0%nat -> data (array_tensor times) = [0] /\ duration < dt)
    /\ ((1 <= n)%nat ->
        last (data (array_tensor times)) = Some duration
        /\ forall i : nat, (i <= n)%nat ->
             data (array_tensor times) !! i = Some (INR i * (duration / INR n))).
Proof.
  intros Hquot Hready Hshape Hwf Hduration Hdt Hnumpy.
  destruct (simulate_with_states quot requires_grad self g L duration dt init
              return_tensor)
    as (n & lead & ps & Hn & Hfloor & Hinit & Hps & Hsim); try done.
  eexists _, _, n. split; [exact Hsim|].
  rewrite !array_tensor_as_array. split; [exact Hn|].
  split; [intros Hsize; by apply (steps_within_one quot)|].
  split; [reflexivity|]. split; [reflexivity|].
  split; [apply length_linspace|].
  assert (Hcases : n = 0%nat \/ (1 <= n)%nat) by lia.
  assert (Hshort : n = 0%nat -> duration < dt).
  { intros ->. apply (no_step_short_duration quot); try done.
    simpl in Hfloor. lra. }
  split; [|split; [|split]].
  - destruct Hcases as [->|H1]; [reflexivity|].
    rewrite linspace_lookup by lia. f_equal. simpl. lra.
  - destruct Hcases as [->|H1].
    + exists 0. split; [reflexivity|].
      specialize (Hshort eq_refl). rewrite Rabs_left; lra.
    + exists duration. split; [by apply linspace_last|].
      rewrite Rminus_diag, Rabs_R0. lra.
  - intros ->. split; [reflexivity|by apply Hshort].
  - intros H1. split; [by apply linspace_last|].
    intros i Hi. rewrite linspace_lookup by done. f_equal.
    unfold Rminus. rewrite Ropp_0, Rplus_0_r, Rplus_0_l. done.
Qed.

(** The hypotheses of C6 hold of the default pendulum, the single state
    [[0.1, 0]], the floats 0.3 and 0.1 as duration and step, and their
    float quotient. *)
Lemma simulate_sample_times_witness :
  rounded_division quot_three_tenths
  /\ ready (__init__ (PyStr "mps")) 9.81 1
  /\ state_shaped (Tensor [2%nat] [0.1; 0])
  /\ wf (Tensor [2%nat] [0.1; 0])
  /\ 0 < float_0_3 /\ 0 < float_0_1
  /\ exists (times trajectory : array) (n : nat),
       simulate_with quot_three_tenths false (__init__ (PyStr "mps"))
         (FromTensor (Tensor [2%nat] [0.1; 0])) float_0_3 float_0_1 true
       = Ok (times, trajectory)
       /\ py_int (quot_three_tenths float_0_3 float_0_1) = Z.of_nat n
       /\ ((Z.of_nat n < 2 ^ 53)%Z ->
           INR n - 1 < float_0_3 / float_0_1 < INR n + 1)
       /\ len (array_tensor times) = Ok (S n)
       /\ len (array_tensor trajectory) = Ok (S n)
       /\ length (data (array_tensor times)) = S n
       /\ data (array_tensor times) !! 0%nat = Some 0
       /\ (exists t_last, last (data (array_tensor times)) = Some t_last
                          /\ Rabs (t_last - float_0_3) <= float_0_1)
       /\ (n = 0%nat ->
           data (array_tensor times) = [0] /\ float_0_3 < float_0_1)
       /\ ((1 <= n)%nat ->
           last (data (array_tensor times)) = Some float_0_3
           /\ forall i : nat, (i <= n)%nat ->
                data (array_tensor times) !! i
                = Some (INR i * (float_0_3 / INR n))).
Proof.
  assert (Hquot := rounded_division_three_tenths).
  assert (Hready := init_ready (PyStr "mps")).
  assert (Hshape : state_shaped (Tensor [2%nat] [0.1; 0])) by (by exists []).
  assert (Hwf : wf (Tensor [2%nat] [0.1; 0])) by reflexivity.
  assert (Hduration : 0 < float_0_3) by (unfold float_0_3; lra).
  assert (Hdt : 0 < float_0_1) by (unfold float_0_1; lra).
  repeat (split; [assumption|]).
  exact (simulate_sample_times quot_three_tenths false
           (__init__ (PyStr "mps")) 9.81 1 float_0_3 float_0_1
           (Tensor [2%nat] [0.1; 0]) true
           Hquot Hready Hshape Hwf Hduration Hdt (or_introl eq_refl)).
Defined.

(** At the floats 0.3 and 0.1 [simulate] takes two steps, not three: it
    returns the three times 0, 0.15 and 0.3 (as floats) and a trajectory of
    three entries. *)
Lemma simulate_three_tenths :
  exists (times trajectory : tensor),
    simulate_with quot_three_tenths false (__init__ (PyStr "mps"))
      (FromTensor (Tensor [2%nat] [0.1; 0])) float_0_3 float_0_1 true
    = Ok (TorchTensor times, TorchTensor trajectory)
    /\ len times = Ok 3%nat /\ len trajectory = Ok 3%nat
    /\ data times !! 0%nat = Some 0
    /\ data times !! 1%nat = Some (float_0_3 / 2)
    /\ data times !! 2%nat = Some float_0_3.
Proof.
  eexists _, _. split.
  - apply (simulate_with_tensor _ 9.81 1 float_0_1 (init_ready (PyStr "mps"))
             quot_three_tenths false (Tensor [2%nat] [0.1; 0])
             [1%nat] [(0.1, 0)] float_0_3 true 2%nat);
      [reflexivity|reflexivity|unfold float_0_1; lra
      |apply py_int_three_tenths|by left].
  - split; [reflexivity|]. split; [reflexivity|].
    rewrite !linspace_lookup by lia.
    repeat split; f_equal; simpl; lra.
Qed.

(** C6 fails as stated: with a duration of 1 and a step of 2, both positive,
    [simulate] returns the single time 0, so the times do not reach the
    duration. *)
Lemma simulate_short_duration_single_time :
  0 < 1 /\ 0 < 2
  /\ exists (times trajectory : array),
       simulate (__init__ (PyStr "mps")) (FromTensor (Tensor [2%nat] [0.1; 0]))
         1 2 true
       = Ok (times, trajectory)
       /\ data (array_tensor times) = [0]
       /\ last (data (array_tensor times)) <> Some 1.
Proof.
  split; [lra|]. split; [lra|].
  eexists _, _. split.
  - apply (simulate_tensor _ 9.81 1 2 (init_ready (PyStr "mps"))
             (Tensor [2%nat] [0.1; 0]) [1%nat] [(0.1, 0)] 1 true 0%nat);
      [reflexivity|reflexivity|lra|].
    apply py_int_floor. simpl. lra.
  - split; [reflexivity|]. simpl. intros [= H]. lra.
Qed.

End TimesClaims.

(** ** The entries of the trajectory and the steps between them *)

Section TrajectoryClaims.

Local Open Scope R_scope.

Lemma rk4_spec_rest (g L dt : R) : rk4_spec g L dt (0, 0) = (0, 0).
Proof.
  unfold rk4_spec, f_spec, vadd, vscale; cbn [fst snd].
  repeat (rewrite ?Rmult_0_r, ?Rplus_0_r, ?Rplus_0_l, ?sin_0).
  reflexivity.
Qed.

Lemma zeros_flat (lead : list nat) :
  zeros (lead ++ [2%nat])
  = Tensor (lead ++ [2%nat]) (flat (replicate (numel lead) (0, 0))).
Proof.
  unfold zeros. f_equal. rewrite numel_snoc.
  induction (numel lead) as [|k IH]; [done|].
  simpl. unfold flat in *; simpl. by rewrite <- IH.
Qed.

(** The pendulum at rest stays at rest. *)
Lemma rk4_step_zeros (self : PendulumSimulator) (g L dt : R) (lead : list nat) :
  ready self g L ->
  rk4_step self (zeros (lead ++ [2%nat])) dt = Ok (zeros (lead ++ [2%nat])).
Proof.
  intros Hready. rewrite zeros_flat.
  rewrite (rk4_step_flat self g L);
    [|apply Hready|apply Hready|apply length_replicate].
  do 3 f_equal. induction (numel lead) as [|k IH]; [done|].
  simpl. by rewrite rk4_spec_rest, IH.
Qed.

(** What the loop of [simulate] stores: entry 0 keeps the zeros it was
    allocated with, entry 1 is one step from the initial state, and every
    later entry is one step from the entry before it. *)
Lemma simulate_trajectory_entries (self : PendulumSimulator)
    (g L duration dt : R) (init : tensor) (return_tensor : bool) :
  ready self g L ->
  state_shaped init -> wf init ->
  0 < duration -> 0 < dt ->
  exists (times trajectory : array) (n : nat),
    simulate self (FromTensor init) duration dt return_tensor
    = Ok (times, trajectory)
    /\ INR n <= duration / dt < INR n + 1
    /\ getitem0 (array_tensor trajectory) 0
       = Ok (zeros (shape (batch_promote init)))
    /\ ((1 <= n)%nat ->
        getitem0 (array_tensor trajectory) 1
        = rk4_step self (batch_promote init) dt)
    /\ forall i : nat, (1 <= i < n)%nat ->
         exists entry : tensor,
           getitem0 (array_tensor trajectory) i = Ok entry
           /\ getitem0 (array_tensor trajectory) (i + 1)
              = rk4_step self entry dt.
Proof.
  intros Hready Hshape Hwf Hduration Hdt.
  destruct (simulate_states self g L duration dt init return_tensor)
    as (n & lead & ps & Hn & Hinit & Hps & Hsim); try done.
  eexists _, _, n. split; [exact Hsim|]. split; [exact Hn|].
  rewrite !array_tensor_as_array, Hinit. cbn [shape].
  split; [by apply trajectory_of_first|]. split.
  - intros H1. rewrite trajectory_of_later by (done || lia).
    rewrite (rk4_step_flat self g L) by (done || apply Hready). done.
  - intros i Hi. eexists. split; [apply trajectory_of_later; [done|lia]|].
    rewrite trajectory_of_later by (done || lia).
    rewrite (rk4_step_flat self g L);
      [|apply Hready|apply Hready|by rewrite length_rk4_iter].
    by replace (i + 1)%nat with (S i) by lia.
Qed.

Lemma steps_of_one_second : py_int (1 / 0.01) = Z.of_nat 100.
Proof.
  apply py_int_floor. rewrite INR_IZR_INZ.
  change (Z.of_nat 100) with 100%Z. lra.
Qed.

(** One second of the default pendulum from [[0.1, 0]] in steps of 0.01. *)
Lemma simulate_default_run (return_tensor : bool) :
  simulate (__init__ (PyStr "mps")) (FromTensor (Tensor [2%nat] [0.1; 0]))
    1 0.01 return_tensor
  = Ok (as_array return_tensor (linspace 0 1 101),
        as_array return_tensor
          (trajectory_of 9.81 1 0.01 [1%nat] 100 [(0.1, 0)])).
Proof.
  apply (simulate_tensor _ 9.81 1 0.01 (init_ready (PyStr "mps"))
           (Tensor [2%nat] [0.1; 0]) [1%nat] [(0.1, 0)] 1 return_tensor 100%nat);
    [reflexivity|reflexivity|lra|apply steps_of_one_second].
Qed.

(** After one step from [(0.1, 0)] the angle is still above 0.09. *)
Lemma rk4_spec_default_angle : 0.09 < (rk4_spec 9.81 1 0.01 (0.1, 0)).1.
Proof.
  unfold rk4_spec, f_spec, vadd, vscale; cbn [fst snd].
  repeat match goal with
         | |- context [sin ?x] =>
             let s := fresh "s" in
             let Hs := fresh "Hs" in
             pose proof (SIN_bound x) as Hs;
             set (s := sin x) in *; clearbody s
         end.
  lra.
Qed.

End TrajectoryClaims.

Section DefectClaims.

Local Open Scope R_scope.

(** C1, at the run of the specification's scenario (default pendulum, initial
    state [[0.1, 0]], one second in steps of 0.01): [simulate] returns, but
    entry 0 of the trajectory is the zero state it was allocated with and not
    the batch-promoted initial state; entry 1 is one step from the initial
    state, which is not one step from entry 0. *)
Theorem simulate_first_entry_is_zero :
  exists (times trajectory : array) (first second : tensor),
    simulate (__init__ (PyStr "mps")) (FromTensor (Tensor [2%nat] [0.1; 0]))
      1 0.01 true
    = Ok (times, trajectory)
    /\ getitem0 (array_tensor trajectory) 0 = Ok first
    /\ first = Tensor [1%nat; 2%nat] [0; 0]
    /\ batch_promote (Tensor [2%nat] [0.1; 0]) = Tensor [1%nat; 2%nat] [0.1; 0]
    /\ first <> batch_promote (Tensor [2%nat] [0.1; 0])
    /\ getitem0 (array_tensor trajectory) 1 = Ok second
    /\ rk4_step (__init__ (PyStr "mps"))
         (batch_promote (Tensor [2%nat] [0.1; 0])) 0.01 = Ok second
    /\ rk4_step (__init__ (PyStr "mps")) first 0.01 <> Ok second.
Proof.
  eexists _, _, _, _. split; [apply simulate_default_run|].
  rewrite array_tensor_as_array.
  split; [by apply trajectory_of_first|].
  split; [reflexivity|]. split; [reflexivity|].
  split; [intros [= H]; lra|].
  split; [apply trajectory_of_later; [done|lia]|].
  split.
  - apply (rk4_step_flat _ 9.81 1 [1%nat] [(0.1, 0)]); try done;
      apply init_ready.
  - rewrite (rk4_step_zeros _ 9.81 1 0.01 [1%nat] (init_ready _)).
    intros [= Htheta _]. pose proof rk4_spec_default_angle as Hangle.
    unfold rk4_spec, f_spec, vadd, vscale in Hangle; cbn [fst snd] in Hangle.
    rewrite <- Htheta in Hangle. lra.
Qed.

Lemma py_mul_numbers (a b : pyval) (x y : R) :
  number a = Ok x -> number b = Ok y ->
  exists v, py_mul a b = Ok v /\ number v = Ok (x * y).
Proof.
  destruct a, b; simpl; try done; intros [= <-] [= <-];
    eexists; (split; [reflexivity|]); simpl; by rewrite ?mult_IZR.
Qed.

(** [compute_energy] never returns: when nothing fails before, the call of
    the length does. *)
Lemma compute_energy_raises (self : PendulumSimulator) (states : tensor) :
  raises (compute_energy self states).
Proof.
  unfold compute_energy, py_call.
  repeat match goal with
         | |- raises (Raise _ ≫= _) => by eexists
         | |- raises (?m ≫= _) =>
             destruct m; [rewrite bind_Ok|by eexists]
         end.
Qed.

(** With numeric parameters and a batch of states the exception is the
    [TypeError] of calling a number. *)
Lemma compute_energy_type_error (self : PendulumSimulator) (m g L : R)
    (lead : list nat) (ps : list vec) :
  has_number self "m" m -> has_number self "g" g -> has_number self "L" L ->
  length ps = numel lead ->
  compute_energy self (Tensor (lead ++ [2%nat]) (flat ps)) = Raise TypeError.
Proof.
  intros Hm Hg HL Hps.
  destruct (getattr_number _ _ _ Hm) as (vm & Em & Nm).
  destruct (getattr_number _ _ _ Hg) as (vg & Eg & Ng).
  destruct (getattr_number _ _ _ HL) as (vL & EL & NL).
  destruct (py_mul_numbers (PyFloat 0.5) vm 0.5 m eq_refl Nm) as (hm & Ehm & Nhm).
  destruct (py_mul_numbers vm vg m g Nm Ng) as (mg & Emg & Nmg).
  unfold compute_energy, py_mul_tensor, py_call.
  repeat first
    [ rewrite bind_Ok | rewrite Em | rewrite Eg | rewrite EL | rewrite NL
    | rewrite Ehm | rewrite Nhm | rewrite Emg
    | rewrite index_last_theta by done
    | rewrite index_last_omega by done ].
  reflexivity.
Qed.

Lemma init_numbers (device : pyval) :
  has_number (__init__ device) "m" 1
  /\ has_number (__init__ device) "g" 9.81
  /\ has_number (__init__ device) "L" 1.
Proof.
  split; [|split; apply init_ready].
  exists (PyFloat 1.0). unfold __init__. simplify_map_eq.
  split; [done|]. simpl. f_equal. lra.
Qed.

(** C2, at the default pendulum and the state [(0.1, 0)]: [compute_energy]
    raises a [TypeError] instead of returning the energy; and for no
    simulator and no states does it return a value. *)
Theorem compute_energy_calls_length :
  compute_energy (__init__ (PyStr "mps")) (Tensor [1%nat; 2%nat] [0.1; 0])
  = Raise TypeError
  /\ forall (self : PendulumSimulator) (states : tensor),
       ~ returns (compute_energy self states).
Proof.
  split.
  - destruct (init_numbers (PyStr "mps")) as (Hm & Hg & HL).
    by apply (compute_energy_type_error _ 1 9.81 1 [1%nat] [(0.1, 0)]).
  - intros self states [E HE].
    destruct (compute_energy_raises self states) as [e He]. congruence.
Qed.

(** Under the formula of the specification the pendulum at rest has no
    energy, and the initial state [(0.1, 0)] of the scenario has some. *)
Lemma energy_spec_rest (m g L : R) : energy_spec m g L (0, 0) = 0.
Proof. unfold energy_spec; cbn [fst snd]. rewrite cos_0. ring. Qed.

Lemma energy_spec_initial : 0 < energy_spec 1 9.81 1 (0.1, 0).
Proof.
  unfold energy_spec; cbn [fst snd].
  assert (cos 0.1 < cos 0) as Hcos.
  { pose proof PI2_1. apply cos_decreasing_1; lra. }
  rewrite cos_0 in Hcos. nra.
Qed.

(** C9, at the run of the specification's scenario: [simulate] returns a
    trajectory of 101 entries, and on every one of them [compute_energy]
    raises a [TypeError], so there is no energy to compare along the
    trajectory.  Moreover entry 0 is the state at rest, whose energy by the
    formula of the specification is 0, below that of the initial state. *)
Theorem trajectory_energy_raises :
  exists (times trajectory : array),
    simulate (__init__ (PyStr "mps")) (FromTensor (Tensor [2%nat] [0.1; 0]))
      1 0.01 true
    = Ok (times, trajectory)
    /\ len (array_tensor trajectory) = Ok 101%nat
    /\ (forall i : nat, (i <= 100)%nat ->
          exists entry : tensor,
            getitem0 (array_tensor trajectory) i = Ok entry
            /\ compute_energy (__init__ (PyStr "mps")) entry = Raise TypeError)
    /\ getitem0 (array_tensor trajectory) 0
       = Ok (Tensor [1%nat; 2%nat] (flat [(0, 0)]))
    /\ energy_spec 1 9.81 1 (0, 0) < energy_spec 1 9.81 1 (0.1, 0).
Proof.
  eexists _, _. split; [apply simulate_default_run|].
  rewrite array_tensor_as_array. split; [reflexivity|].
  destruct (init_numbers (PyStr "mps")) as (Hm & Hg & HL).
  split; [|split].
  - intros i Hi. destruct i as [|i].
    + eexists. split; [by apply trajectory_of_first|].
      rewrite (zeros_flat [1%nat]).
      by apply (compute_energy_type_error _ 1 9.81 1 [1%nat]).
    + eexists. split; [apply trajectory_of_later; [done|lia]|].
      apply (compute_energy_type_error _ 1 9.81 1 [1%nat]); try done.
      by rewrite length_rk4_iter.
  - by apply trajectory_of_first.
  - rewrite energy_spec_rest. apply energy_spec_initial.
Qed.

(** A tensor with a single component is no pendulum state, yet [dynamics]
    and [rk4_step] go through on it. *)
Lemma dynamics_one_component (self : PendulumSimulator) (g L x t : R) :
  params self g L ->
  dynamics self (Tensor [1%nat; 1%nat] [x]) t
  = Ok (Tensor [1%nat; 1%nat] [- (g / L) * sin x]).
Proof.
  intros Hp. unfold dynamics.
  destruct (py_div_params _ _ _ Hp) as (vg & vL & Eg & EL & Hq).
  change (slice_last 0 1 (Tensor [1%nat; 1%nat] [x]))
    with (Ok (Tensor [1%nat; 1%nat] [x])).
  change (slice_last 1 2 (Tensor [1%nat; 1%nat] [x]))
    with (Ok (Tensor [1%nat; 0%nat] [])).
  by rewrite !bind_Ok, Eg, bind_Ok, EL, bind_Ok, Hq, bind_Ok.
Qed.

Lemma rk4_step_one_component (self : PendulumSimulator) (g L x dt : R) :
  ready self g L ->
  exists y, rk4_step self (Tensor [1%nat; 1%nat] [x]) dt
            = Ok (Tensor [1%nat; 1%nat] [y]).
Proof.
  intros [Hp Hd _ _]. unfold rk4_step, method. rewrite Hd, bind_Ok.
  repeat (rewrite (dynamics_one_component self g L) by done;
          rewrite bind_Ok;
          match goal with
          | |- context [tadd ?a ?b ≫= _] =>
              change (tadd a b)
                with (Ok (Tensor [1%nat; 1%nat]
                            (zip_with Rplus (data a) (data b))))
          end;
          rewrite bind_Ok; cbn [data smul tmap map zip_with]).
  eexists. reflexivity.
Qed.

(** C3, at the plain list [[0.1, 0.0]]: [simulate] raises a [TypeError]
    instead of converting the list, and for no simulator and no initial state
    other than a tensor does it return a value; whereas a tensor with a
    single component, which is no state either, is accepted without error. *)
Theorem simulate_rejects_list :
  simulate (__init__ (PyStr "mps"))
    (FromObject (PyList [PyFloat 0.1; PyFloat 0.0])) 1 0.01 true
  = Raise TypeError
  /\ (forall (self : PendulumSimulator) (v : pyval) (duration dt : R)
        (return_tensor : bool),
        ~ returns (simulate self (FromObject v) duration dt return_tensor))
  /\ returns (simulate (__init__ (PyStr "mps"))
                (FromTensor (Tensor [1%nat] [0.5])) 1 1 true).
Proof.
  split; [|split].
  - unfold simulate, simulate_with, getattr, __init__. by simplify_map_eq.
  - intros self v duration dt return_tensor [res Hres].
    unfold simulate, simulate_with, torch_Tensor_dtype_device in Hres.
    by destruct (getattr self "device").
  - pose proof (init_ready (PyStr "mps")) as Hready.
    destruct (rk4_step_one_component _ 9.81 1 0.5 1 Hready) as [y Hy].
    unfold simulate, simulate_with. rewrite bind_Ok.
    cbn [dim shape length Nat.eqb unsqueeze0].
    destruct (Req_EM_T 1 0) as [|_]; [lra|].
    rewrite bind_Ok, (py_int_floor (1 / 1) 1) by (simpl; lra).
    destruct (ready_device _ _ _ Hready) as [dev Hdev].
    unfold getattr. rewrite Hdev, !bind_Ok.
    change (torch_zeros (Z.of_nat 1 + 1) [1%nat; 1%nat])
      with (Ok (zeros [2%nat; 1%nat; 1%nat])).
    change (torch_linspace 0 1 (Z.of_nat 1 + 1)) with (Ok (linspace 0 1 2)).
    rewrite !bind_Ok.
    change (seq 0 (Z.to_nat (Z.of_nat 1))) with [0%nat].
    change (unsqueeze0 (Tensor [1%nat] [0.5])) with (Tensor [1%nat; 1%nat] [0.5]).
    cbn [simulate_loop]. unfold method. rewrite (ready_rk4_step _ _ _ Hready), bind_Ok, Hy, bind_Ok.
    eexists. reflexivity.
Qed.

End DefectClaims.

(** ** Parameter updates *)

Section ParameterStore.

Implicit Types (self : PendulumSimulator) (kwargs : list (string * pyval)).

Lemma hasattr_instance self (key : string) :
  is_Some (self !! key) -> hasattr self key = true.
Proof. intros H. unfold hasattr. by rewrite bool_decide_eq_true_2. Qed.

Lemma hasattr_class self (key : string) :
  key ∈ class_attrs -> hasattr self key = true.
Proof.
  intros H. unfold hasattr. rewrite (bool_decide_eq_true_2 (key ∈ class_attrs)) by done.
  by rewrite orb_true_r.
Qed.

(** Assigning an attribute the object has does not change which names it has. *)
Lemma hasattr_insert self (key key' : string) (value : pyval) :
  hasattr self key = true ->
  hasattr (<[key := value]> self) key' = hasattr self key'.
Proof.
  intros Hkey. destruct (decide (key = key')) as [<-|Hne].
  - rewrite Hkey. apply hasattr_instance. rewrite lookup_insert_eq. eauto.
  - unfold hasattr. by rewrite lookup_insert_ne.
Qed.

Lemma setattr_plain self (key : string) (value : pyval) :
  key ∉ descriptor_slots -> setattr self key value = Ok (<[key := value]> self).
Proof.
  unfold descriptor_slots, setattr. rewrite !not_elem_of_cons.
  intros (H1 & H2 & H3 & _). by rewrite !decide_False.
Qed.

(** [set_params] touches no attribute outside its keywords. *)
Lemma set_params_frame kwargs : forall self (key : string),
  key ∉ kwargs.*1 -> (set_params self kwargs).2 !! key = self !! key.
Proof.
  induction kwargs as [|[k v] kwargs IH]; intros self key Hkey; [done|].
  simpl in *. apply not_elem_of_cons in Hkey as [Hne Hkey].
  destruct (hasattr self k); [|done].
  unfold setattr. repeat case_decide; try done.
  rewrite IH by done. by rewrite lookup_insert_ne.
Qed.

(** With every key an attribute, [set_params] makes all the assignments. *)
Lemma set_params_all_attributes kwargs : forall self,
  Forall (fun kv => hasattr self kv.1 = true /\ kv.1 ∉ descriptor_slots) kwargs ->
  set_params self kwargs = (Ok tt, assign_all self kwargs).
Proof.
  induction kwargs as [|[k v] kwargs IH]; intros self Hall; [done|].
  apply Forall_cons in Hall as [[Hk Hslot] Hall]. simpl in *.
  rewrite Hk, setattr_plain by done. apply IH.
  eapply Forall_impl; [exact Hall|]. intros [k' v'] [H1 H2]; simpl in *.
  by rewrite hasattr_insert.
Qed.

Lemma assign_all_frame kwargs : forall self (key : string),
  key ∉ kwargs.*1 -> assign_all self kwargs !! key = self !! key.
Proof.
  induction kwargs as [|[k v] kwargs IH]; intros self key Hkey; [done|].
  simpl in *. apply not_elem_of_cons in Hkey as [Hne Hkey].
  unfold assign_all in *; simpl. rewrite IH by done. by rewrite lookup_insert_ne.
Qed.

Lemma assign_all_lookup kwargs : forall self,
  NoDup kwargs.*1 ->
  Forall (fun kv => assign_all self kwargs !! kv.1 = Some kv.2) kwargs.
Proof.
  induction kwargs as [|[k v] kwargs IH]; intros self Hnd; [done|].
  simpl in Hnd. apply NoDup_cons in Hnd as [Hk Hnd].
  apply Forall_cons; split.
  - simpl. change (assign_all self ((k, v) :: kwargs))
      with (assign_all (<[k := v]> self) kwargs).
    rewrite assign_all_frame by done. apply lookup_insert_eq.
  - by apply IH.
Qed.

End ParameterStore.

Section ParameterClaims.

Implicit Types (self : PendulumSimulator) (kwargs : list (string * pyval)).

(** [set_params] stops at the first key that names no attribute, with the
    assignments before it made. *)
Lemma set_params_first_invalid self (pre post : list (string * pyval))
    (key : string) (value : pyval) :
  Forall (fun kv => hasattr self kv.1 = true /\ kv.1 ∉ descriptor_slots) pre ->
  hasattr self key = false ->
  set_params self (pre ++ (key, value) :: post)
  = (Raise (invalid_parameter key), assign_all self pre).
Proof.
  revert self. induction pre as [|[k v] pre IH]; intros self Hpre Hkey; simpl.
  - by rewrite Hkey.
  - apply Forall_cons in Hpre as [[Hk Hslot] Hpre]. simpl in *.
    rewrite Hk, setattr_plain by done. apply IH.
    + eapply Forall_impl; [exact Hpre|]. intros [k' v'] [H1 H2]; simpl in *.
      by rewrite hasattr_insert.
    + by rewrite hasattr_insert.
Qed.

(** C4, as the code has it.  [set_params] accepts a key exactly when
    [hasattr] holds of it, that is when it names an instance attribute, a
    name bound in the class or an attribute inherited from [object].  When
    every key is accepted the call returns and each attribute holds the value
    given for it; at the first key that names no attribute the call raises the
    [ValueError] naming that key. *)
Theorem set_params_accepts_every_attribute self kwargs :
  NoDup kwargs.*1 ->
  Forall (fun kv => kv.1 ∉ descriptor_slots) kwargs ->
  (forall key : string,
     hasattr self key = true
     <-> is_Some (self !! key) \/ key ∈ class_attrs \/ key ∈ object_attrs)
  /\ (Forall (fun kv => hasattr self kv.1 = true) kwargs ->
      exists self',
        set_params self kwargs = (Ok tt, self')
        /\ Forall (fun kv => self' !! kv.1 = Some kv.2) kwargs)
  /\ (forall (pre post : list (string * pyval)) (key : string) (value : pyval),
        kwargs = pre ++ (key, value) :: post ->
        Forall (fun kv => hasattr self kv.1 = true) pre ->
        hasattr self key = false ->
        (set_params self kwargs).1 = Raise (invalid_parameter key)).
Proof.
  intros Hnd Hslots. split; [|split].
  - intros key. unfold hasattr.
    rewrite !orb_true_iff, !bool_decide_eq_true. tauto.
  - intros Hall. exists (assign_all self kwargs). split.
    + apply set_params_all_attributes.
      apply Forall_and. by split.
    + by apply assign_all_lookup.
  - intros pre post key value -> Hpre Hkey.
    apply Forall_app in Hslots as [Hslots _].
    rewrite set_params_first_invalid; [done| |done].
    apply Forall_and. by split.
Qed.

(** The hypotheses of C4 hold of the default pendulum and the update
    [L=2.0, m=3.0], which is carried out. *)
Lemma set_params_accepts_every_attribute_witness :
  NoDup [("L", PyFloat 2%R); ("m", PyFloat 3%R)].*1
  /\ Forall (fun kv : string * pyval => kv.1 ∉ descriptor_slots)
       [("L", PyFloat 2%R); ("m", PyFloat 3%R)]
  /\ Forall (fun kv : string * pyval =>
               hasattr (__init__ (PyStr "mps")) kv.1 = true)
       [("L", PyFloat 2%R); ("m", PyFloat 3%R)]
  /\ exists self',
       set_params (__init__ (PyStr "mps"))
         [("L", PyFloat 2%R); ("m", PyFloat 3%R)] = (Ok tt, self')
       /\ Forall (fun kv : string * pyval => self' !! kv.1 = Some kv.2)
            [("L", PyFloat 2%R); ("m", PyFloat 3%R)].
Proof.
  assert (Hnd : NoDup [("L", PyFloat 2%R); ("m", PyFloat 3%R)].*1).
  { simpl. repeat (apply NoDup_cons; split; [name_not_in_list|]).
    apply NoDup_nil_2. }
  assert (Hslots : Forall (fun kv : string * pyval => kv.1 ∉ descriptor_slots)
                     [("L", PyFloat 2%R); ("m", PyFloat 3%R)]).
  { unfold descriptor_slots.
    repeat (apply Forall_cons; split; [name_not_in_list|]).
    apply Forall_nil_2. }
  assert (Hattrs : Forall (fun kv : string * pyval =>
                             hasattr (__init__ (PyStr "mps")) kv.1 = true)
                     [("L", PyFloat 2%R); ("m", PyFloat 3%R)]).
  { repeat (apply Forall_cons; split; [reflexivity|]). apply Forall_nil_2. }
  split; [exact Hnd|]. split; [exact Hslots|]. split; [exact Hattrs|].
  exact (proj1 (proj2 (set_params_accepts_every_attribute
                         (__init__ (PyStr "mps"))
                         [("L", PyFloat 2%R); ("m", PyFloat 3%R)] Hnd Hslots))
           Hattrs).
Defined.

(** C4 fails as stated: [device] and [simulate] are not among the parameter
    fields [g], [L] and [m], yet [set_params] accepts both without raising,
    and overwrites the device and shadows the method. *)
Lemma set_params_accepts_device_and_method :
  ("device" ∉ ["g"; "L"; "m"])
  /\ set_params (__init__ (PyStr "mps")) [("device", PyStr "cpu")]
     = (Ok tt, <["device" := PyStr "cpu"]> (__init__ (PyStr "mps")))
  /\ ("simulate" ∉ ["g"; "L"; "m"])
  /\ set_params (__init__ (PyStr "mps")) [("simulate", PyInt 1)]
     = (Ok tt, <["simulate" := PyInt 1]> (__init__ (PyStr "mps"))).
Proof.
  split; [name_not_in_list|]. split; [|split; [name_not_in_list|]].
  - rewrite set_params_all_attributes; [done|].
    apply Forall_singleton. split.
    + apply hasattr_instance, init_hasattr. name_in_list.
    + unfold descriptor_slots. name_not_in_list.
  - rewrite set_params_all_attributes; [done|].
    apply Forall_singleton. split.
    + apply hasattr_class. unfold class_attrs. name_in_list.
    + unfold descriptor_slots. name_not_in_list.
Qed.

(** C7.  When [set_params] reaches a key that names no attribute, the
    assignments for the keys before it have been made and stay: the call
    raises and leaves the object with every earlier key holding its new
    value, not the value it had before the call. *)
Theorem set_params_keeps_earlier_updates self (pre post : list (string * pyval))
    (key : string) (value : pyval) :
  NoDup pre.*1 ->
  Forall (fun kv => hasattr self kv.1 = true /\ kv.1 ∉ descriptor_slots) pre ->
  hasattr self key = false ->
  exists self',
    set_params self (pre ++ (key, value) :: post)
    = (Raise (invalid_parameter key), self')
    /\ self' = assign_all self pre
    /\ Forall (fun kv => self' !! kv.1 = Some kv.2) pre
    /\ forall k : string, k ∉ pre.*1 -> self' !! k = self !! k.
Proof.
  intros Hnd Hpre Hkey. exists (assign_all self pre).
  split; [by apply set_params_first_invalid|]. split; [done|].
  split; [by apply assign_all_lookup|].
  intros k Hk. by apply assign_all_frame.
Qed.

(** The hypotheses of C7 hold of the default pendulum and the update
    [g=1.62, nonexistent=1]: the call raises and gravity stays 1.62. *)
Lemma set_params_keeps_earlier_updates_witness :
  NoDup [("g", PyFloat 1.62%R)].*1
  /\ Forall (fun kv : string * pyval =>
               hasattr (__init__ (PyStr "mps")) kv.1 = true
               /\ kv.1 ∉ descriptor_slots) [("g", PyFloat 1.62%R)]
  /\ hasattr (__init__ (PyStr "mps")) "nonexistent" = false
  /\ exists self',
       set_params (__init__ (PyStr "mps"))
         [("g", PyFloat 1.62%R); ("nonexistent", PyInt 1)]
       = (Raise (invalid_parameter "nonexistent"), self')
       /\ self' = assign_all (__init__ (PyStr "mps")) [("g", PyFloat 1.62%R)]
       /\ Forall (fun kv : string * pyval => self' !! kv.1 = Some kv.2)
            [("g", PyFloat 1.62%R)]
       /\ forall k : string, k ∉ [("g", PyFloat 1.62%R)].*1 ->
            self' !! k = __init__ (PyStr "mps") !! k.
Proof.
  assert (Hnd : NoDup [("g", PyFloat 1.62%R)].*1).
  { simpl. apply NoDup_singleton. }
  assert (Hpre : Forall (fun kv : string * pyval =>
                           hasattr (__init__ (PyStr "mps")) kv.1 = true
                           /\ kv.1 ∉ descriptor_slots) [("g", PyFloat 1.62%R)]).
  { apply Forall_singleton. split.
    - apply hasattr_instance, init_hasattr. name_in_list.
    - unfold descriptor_slots. name_not_in_list. }
  assert (Hkey : hasattr (__init__ (PyStr "mps")) "nonexistent" = false).
  { unfold hasattr, __init__. rewrite !orb_false_iff, !bool_decide_eq_false.
    split; [split|].
    - simplify_map_eq. by intros [? ?].
    - unfold class_attrs. name_not_in_list.
    - unfold object_attrs. name_not_in_list. }
  split; [exact Hnd|]. split; [exact Hpre|]. split; [exact Hkey|].
  exact (set_params_keeps_earlier_updates (__init__ (PyStr "mps"))
           [("g", PyFloat 1.62%R)] [] "nonexistent" (PyInt 1) Hnd Hpre Hkey).
Defined.

End ParameterClaims.

(** ** Further properties of the stepper *)

Section StepperSymmetries.

Local Open Scope R_scope.

Lemma vec_eq (a b c d : R) : a = c -> b = d -> (a, b) = (c, d).
Proof. by intros -> ->. Qed.

Lemma f_spec_equilibrium (g L : R) (p : vec) :
  equilibrium p -> f_spec g L p = (0, 0).
Proof.
  intros [Hsin Hw]. unfold f_spec. rewrite Hsin, Hw. f_equal; ring.
Qed.

Lemma vadd_vscale_zero (p : vec) (c : R) : vadd p (vscale c (0, 0)) = p.
Proof. destruct p as [a b]. unfold vadd, vscale; cbn [fst snd]. f_equal; ring. Qed.

Lemma rk4_spec_equilibrium (g L dt : R) (p : vec) :
  equilibrium p -> rk4_spec g L dt p = p.
Proof.
  intros Hp. unfold rk4_spec; cbv zeta.
  repeat first
    [ rewrite (f_spec_equilibrium g L p Hp) | rewrite vadd_vscale_zero ].
  destruct p as [a b]. unfold vadd, vscale; cbn [fst snd]. f_equal; ring.
Qed.

Lemma map_rk4_spec_equilibria (g L dt : R) (ps : list vec) :
  Forall equilibrium ps -> map (rk4_spec g L dt) ps = ps.
Proof.
  induction 1 as [|p ps Hp _ IH]; simpl; [done|].
  by rewrite rk4_spec_equilibrium, IH.
Qed.

(** X1.  A batch of equilibria (zero velocity, sine of the angle zero) is a
    fixed point of [rk4_step], for every step size, gravity and length. *)
Theorem rk4_step_keeps_equilibria (self : PendulumSimulator) (g L dt : R)
    (lead : list nat) (ps : list vec) :
  params self g L ->
  self !! "dynamics" = None ->
  length ps = numel lead ->
  Forall equilibrium ps ->
  rk4_step self (Tensor (lead ++ [2%nat]) (flat ps)) dt
  = Ok (Tensor (lead ++ [2%nat]) (flat ps)).
Proof.
  intros Hp Hd Hlen Heq.
  rewrite (rk4_step_flat self g L) by done.
  by rewrite map_rk4_spec_equilibria.
Qed.

(** The hypotheses of X1 hold of the default pendulum and the batch of the
    hanging state [(0, 0)] and the inverted state [(PI, 0)]. *)
Lemma rk4_step_keeps_equilibria_witness :
  params (__init__ (PyStr "mps")) 9.81 1
  /\ __init__ (PyStr "mps") !! "dynamics" = None
  /\ length [(0, 0); (PI, 0)] = numel [2%nat]
  /\ Forall equilibrium [(0, 0); (PI, 0)]
  /\ rk4_step (__init__ (PyStr "mps"))
       (Tensor [2%nat; 2%nat] [0; 0; PI; 0]) 0.01
     = Ok (Tensor [2%nat; 2%nat] [0; 0; PI; 0]).
Proof.
  assert (Hp : params (__init__ (PyStr "mps")) 9.81 1) by apply init_ready.
  assert (Hd : __init__ (PyStr "mps") !! "dynamics" = None) by apply init_ready.
  assert (Heq : Forall equilibrium [(0, 0); (PI, 0)]).
  { repeat (apply Forall_cons; split); try apply Forall_nil_2;
      split; cbn [fst snd]; auto using sin_0, sin_PI. }
  split; [exact Hp|]. split; [exact Hd|]. split; [reflexivity|].
  split; [exact Heq|].
  exact (rk4_step_keeps_equilibria (__init__ (PyStr "mps")) 9.81 1 0.01
           [2%nat] [(0, 0); (PI, 0)] Hp Hd eq_refl Heq).
Defined.

Lemma f_spec_mirror (g L : R) (p : vec) :
  f_spec g L (mirror p) = mirror (f_spec g L p).
Proof.
  unfold f_spec, mirror; cbn [fst snd]. rewrite sin_neg. f_equal; ring.
Qed.

Lemma vadd_mirror (u v : vec) : vadd (mirror u) (mirror v) = mirror (vadd u v).
Proof. unfold vadd, mirror; cbn [fst snd]. f_equal; ring. Qed.

Lemma vscale_mirror (c : R) (v : vec) : vscale c (mirror v) = mirror (vscale c v).
Proof. unfold vscale, mirror; cbn [fst snd]. f_equal; ring. Qed.

Lemma rk4_spec_mirror (g L dt : R) (p : vec) :
  rk4_spec g L dt (mirror p) = mirror (rk4_spec g L dt p).
Proof.
  unfold rk4_spec; cbv zeta.
  by repeat first
    [ rewrite f_spec_mirror | rewrite vscale_mirror | rewrite vadd_mirror ].
Qed.

(** X2.  [rk4_step] commutes with mirroring the pendulum at the vertical:
    the step from the batch of negated states is the negated step. *)
Theorem rk4_step_mirror (self : PendulumSimulator) (g L dt : R)
    (lead : list nat) (ps : list vec) :
  params self g L ->
  self !! "dynamics" = None ->
  length ps = numel lead ->
  exists qs : list vec,
    rk4_step self (Tensor (lead ++ [2%nat]) (flat ps)) dt
    = Ok (Tensor (lead ++ [2%nat]) (flat qs))
    /\ rk4_step self (Tensor (lead ++ [2%nat]) (flat (map mirror ps))) dt
       = Ok (Tensor (lead ++ [2%nat]) (flat (map mirror qs))).
Proof.
  intros Hp Hd Hlen. exists (map (rk4_spec g L dt) ps).
  split; [by apply rk4_step_flat|].
  rewrite (rk4_step_flat self g L) by (by rewrite ?length_map).
  rewrite !map_map. do 3 f_equal.
  apply map_ext. intros p. apply rk4_spec_mirror.
Qed.

(** The hypotheses of X2 hold of the default pendulum and the state
    [(0.1, 0)], whose mirror image is [(-0.1, -0)]. *)
Lemma rk4_step_mirror_witness :
  params (__init__ (PyStr "mps")) 9.81 1
  /\ __init__ (PyStr "mps") !! "dynamics" = None
  /\ length [(0.1, 0)] = numel [1%nat]
  /\ exists qs : list vec,
       rk4_step (__init__ (PyStr "mps")) (Tensor [1%nat; 2%nat] [0.1; 0]) 0.01
       = Ok (Tensor [1%nat; 2%nat] (flat qs))
       /\ rk4_step (__init__ (PyStr "mps"))
            (Tensor [1%nat; 2%nat] [Ropp 0.1; Ropp 0]) 0.01
          = Ok (Tensor [1%nat; 2%nat] (flat (map mirror qs))).
Proof.
  assert (Hp : params (__init__ (PyStr "mps")) 9.81 1) by apply init_ready.
  assert (Hd : __init__ (PyStr "mps") !! "dynamics" = None) by apply init_ready.
  split; [exact Hp|]. split; [exact Hd|]. split; [reflexivity|].
  exact (rk4_step_mirror (__init__ (PyStr "mps")) 9.81 1 0.01
           [1%nat] [(0.1, 0)] Hp Hd eq_refl).
Defined.

Lemma sin_full_turn (x : R) : sin (x + 2 * PI) = sin x.
Proof. rewrite sin_plus, cos_2PI, sin_2PI. ring. Qed.

Lemma cos_full_turn (x : R) : cos (x + 2 * PI) = cos x.
Proof. rewrite cos_plus, cos_2PI, sin_2PI. ring. Qed.

Lemma f_spec_full_turn (g L : R) (p : vec) :
  f_spec g L (full_turn p) = f_spec g L p.
Proof. unfold f_spec, full_turn; cbn [fst snd]. by rewrite sin_full_turn. Qed.

Lemma vadd_full_turn (u v : vec) : vadd (full_turn u) v = full_turn (vadd u v).
Proof. unfold vadd, full_turn; cbn [fst snd]. f_equal; ring. Qed.

Lemma rk4_spec_full_turn (g L dt : R) (p : vec) :
  rk4_spec g L dt (full_turn p) = full_turn (rk4_spec g L dt p).
Proof.
  unfold rk4_spec; cbv zeta.
  by repeat first [ rewrite f_spec_full_turn | rewrite vadd_full_turn ].
Qed.

(** X3.  [rk4_step] commutes with a full turn: from a batch whose angles are
    all [2 PI] larger it returns the same velocities and angles [2 PI]
    larger. *)
Theorem rk4_step_full_turn (self : PendulumSimulator) (g L dt : R)
    (lead : list nat) (ps : list vec) :
  params self g L ->
  self !! "dynamics" = None ->
  length ps = numel lead ->
  exists qs : list vec,
    rk4_step self (Tensor (lead ++ [2%nat]) (flat ps)) dt
    = Ok (Tensor (lead ++ [2%nat]) (flat qs))
    /\ rk4_step self (Tensor (lead ++ [2%nat]) (flat (map full_turn ps))) dt
       = Ok (Tensor (lead ++ [2%nat]) (flat (map full_turn qs))).
Proof.
  intros Hp Hd Hlen. exists (map (rk4_spec g L dt) ps).
  split; [by apply rk4_step_flat|].
  rewrite (rk4_step_flat self g L) by (by rewrite ?length_map).
  rewrite !map_map. do 3 f_equal.
  apply map_ext. intros p. apply rk4_spec_full_turn.
Qed.

(** The hypotheses of X3 hold of the default pendulum and the state
    [(0.1, 0)], which a full turn takes to [(0.1 + 2 PI, 0)]. *)
Lemma rk4_step_full_turn_witness :
  params (__init__ (PyStr "mps")) 9.81 1
  /\ __init__ (PyStr "mps") !! "dynamics" = None
  /\ length [(0.1, 0)] = numel [1%nat]
  /\ exists qs : list vec,
       rk4_step (__init__ (PyStr "mps")) (Tensor [1%nat; 2%nat] [0.1; 0]) 0.01
       = Ok (Tensor [1%nat; 2%nat] (flat qs))
       /\ rk4_step (__init__ (PyStr "mps"))
            (Tensor [1%nat; 2%nat] [0.1 + 2 * PI; 0]) 0.01
          = Ok (Tensor [1%nat; 2%nat] (flat (map full_turn qs))).
Proof.
  assert (Hp : params (__init__ (PyStr "mps")) 9.81 1) by apply init_ready.
  assert (Hd : __init__ (PyStr "mps") !! "dynamics" = None) by apply init_ready.
  split; [exact Hp|]. split; [exact Hd|]. split; [reflexivity|].
  exact (rk4_step_full_turn (__init__ (PyStr "mps")) 9.81 1 0.01
           [1%nat] [(0.1, 0)] Hp Hd eq_refl).
Defined.

End StepperSymmetries.

(** ** Further properties of the diagnostics and of the input shapes *)

Section ShapeEdges.

Local Open Scope R_scope.

Lemma angles_same_direction (ps qs : list vec) :
  Forall2 (fun p q : vec => q.1 = p.1 \/ q.1 = p.1 + 2 * PI) ps qs ->
  map sin (map fst qs) = map sin (map fst ps)
  /\ map cos (map fst qs) = map cos (map fst ps).
Proof.
  induction 1 as [|p q ps qs Hpq _ [IHs IHc]]; [done|].
  simpl. rewrite IHs, IHc.
  destruct Hpq as [->| ->]; [done|].
  by rewrite sin_full_turn, cos_full_turn.
Qed.

(** X4.  [compute_cartesian_coords] looks at the angles only, and only up
    to full turns: two batches whose angles agree or differ by [2 PI], with
    any velocities, get the same outcome, whatever the simulator holds. *)
Theorem cartesian_coords_angle_only (self : PendulumSimulator)
    (lead : list nat) (ps qs : list vec) :
  length ps = numel lead ->
  Forall2 (fun p q : vec => q.1 = p.1 \/ q.1 = p.1 + 2 * PI) ps qs ->
  compute_cartesian_coords self (Tensor (lead ++ [2%nat]) (flat qs))
  = compute_cartesian_coords self (Tensor (lead ++ [2%nat]) (flat ps)).
Proof.
  intros Hps Hpq.
  assert (Hqs : length qs = numel lead).
  { by rewrite <- (Forall2_length _ _ _ Hpq). }
  destruct (angles_same_direction ps qs Hpq) as [Hsin Hcos].
  unfold compute_cartesian_coords, py_mul_tensor.
  destruct (getattr self "L") as [vL|e]; [|done]. rewrite !bind_Ok.
  rewrite !index_last_theta by done. rewrite !bind_Ok.
  destruct (number vL) as [c|e]; [|done]. rewrite !bind_Ok.
  unfold smul, tmap; cbn [shape data]. by rewrite Hsin, Hcos.
Qed.

(** The hypotheses of X4 hold of the default pendulum and the states
    [(0.1, 0)] and [(0.1 + 2 PI, 5)]. *)
Lemma cartesian_coords_angle_only_witness :
  length [(0.1, 0)] = numel [1%nat]
  /\ Forall2 (fun p q : vec => q.1 = p.1 \/ q.1 = p.1 + 2 * PI)
       [(0.1, 0)] [(0.1 + 2 * PI, 5)]
  /\ compute_cartesian_coords (__init__ (PyStr "mps"))
       (Tensor [1%nat; 2%nat] [0.1 + 2 * PI; 5])
     = compute_cartesian_coords (__init__ (PyStr "mps"))
         (Tensor [1%nat; 2%nat] [0.1; 0]).
Proof.
  assert (Hpq : Forall2 (fun p q : vec => q.1 = p.1 \/ q.1 = p.1 + 2 * PI)
                  [(0.1, 0)] [(0.1 + 2 * PI, 5)]).
  { constructor; [by right|constructor]. }
  split; [reflexivity|]. split; [exact Hpq|].
  exact (cartesian_coords_angle_only (__init__ (PyStr "mps")) [1%nat]
           [(0.1, 0)] [(0.1 + 2 * PI, 5)] eq_refl Hpq).
Defined.

(** X5.  [compute_cartesian_coords] checks no shape: with a numeric length
    it returns coordinates of the leading shape for every tensor whose last
    axis is not empty, whatever its size, and raises [IndexError] exactly on
    a tensor without axes or with an empty last axis. *)
Theorem cartesian_coords_last_axis (self : PendulumSimulator) (L : R)
    (states : tensor) :
  has_number self "L" L ->
  (shape states = [] ->
   compute_cartesian_coords self states = Raise IndexError)
  /\ (forall (lead : list nat) (n : nat),
        shape states = lead ++ [n] ->
        (n = 0%nat -> compute_cartesian_coords self states = Raise IndexError)
        /\ ((1 <= n)%nat ->
            exists x y : tensor,
              compute_cartesian_coords self states = Ok (x, y)
              /\ shape x = lead /\ shape y = lead)).
Proof.
  intros HL. destruct (getattr_number _ _ _ HL) as (vL & EL & NL).
  unfold compute_cartesian_coords, index_last, py_mul_tensor.
  rewrite EL, bind_Ok. split.
  - by intros ->.
  - intros lead n ->. rewrite split_last_app. split.
    + by intros ->.
    + intros Hn. destruct (Nat.ltb_spec 0 n); [|lia].
      repeat first [ rewrite bind_Ok | rewrite NL ].
      eexists _, _. split; [reflexivity|]. by split.
Qed.

(** The hypothesis of X5 holds of the default pendulum; on the tensor
    [[0.1, 0, 7]] of three components the coordinates come back. *)
Lemma cartesian_coords_last_axis_witness :
  has_number (__init__ (PyStr "mps")) "L" 1
  /\ exists x y : tensor,
       compute_cartesian_coords (__init__ (PyStr "mps"))
         (Tensor [1%nat; 3%nat] [0.1; 0; 7]) = Ok (x, y)
       /\ shape x = [1%nat] /\ shape y = [1%nat].
Proof.
  assert (HL : has_number (__init__ (PyStr "mps")) "L" 1) by apply init_ready.
  split; [exact HL|].
  exact (proj2 (proj2 (cartesian_coords_last_axis (__init__ (PyStr "mps")) 1
                         (Tensor [1%nat; 3%nat] [0.1; 0; 7]) HL)
                  [1%nat] 3%nat eq_refl)
           (le_S _ _ (le_S _ _ (le_n 1)))).
Defined.

(** X6.  The stepper takes two components per state and no more: on a
    tensor whose last axis has three or more entries [dynamics] silently
    drops all but the first two, and [rk4_step] raises [RuntimeError] when it
    adds the slope to the state; on a tensor without axes both raise
    [IndexError]. *)
Theorem rk4_step_rejects_wide_states (self : PendulumSimulator) (g L dt t : R)
    (state : tensor) :
  params self g L ->
  self !! "dynamics" = None ->
  (shape state = [] ->
   dynamics self state t = Raise IndexError
   /\ rk4_step self state dt = Raise IndexError)
  /\ (forall (lead : list nat) (n : nat),
        shape state = lead ++ [n] -> (3 <= n)%nat ->
        (exists out, dynamics self state t = Ok out
                     /\ shape out = lead ++ [2%nat])
        /\ rk4_step self state dt = Raise RuntimeError).
Proof.
  intros Hp Hd. split.
  - intros Hs. unfold rk4_step, method, dynamics, slice_last.
    by rewrite Hd, Hs.
  - intros lead n Hs Hn.
    assert (Hdyn : forall t', exists out, dynamics self state t' = Ok out
                                          /\ shape out = lead ++ [2%nat]).
    { intros t'.
      destruct (dynamics_shape self g L state t' lead n Hp Hs) as (out & E & Ho).
      exists out. split; [done|]. rewrite Ho. do 2 f_equal. lia. }
    split; [apply Hdyn|].
    destruct (Hdyn 0) as (k1 & E & Hk1).
    unfold rk4_step, method. rewrite Hd, bind_Ok, E, bind_Ok.
    unfold tadd. rewrite decide_False; [done|].
    rewrite shape_smul, Hs, Hk1. intros Heq.
    apply app_inv_head in Heq. injection Heq as ->. lia.
Qed.

(** The hypotheses of X6 hold of the default pendulum; on the tensor
    [[0.1, 0, 7]] the slope has two components and the step fails. *)
Lemma rk4_step_rejects_wide_states_witness :
  params (__init__ (PyStr "mps")) 9.81 1
  /\ __init__ (PyStr "mps") !! "dynamics" = None
  /\ (exists out,
        dynamics (__init__ (PyStr "mps")) (Tensor [3%nat] [0.1; 0; 7]) 0 = Ok out
        /\ shape out = [2%nat])
  /\ rk4_step (__init__ (PyStr "mps")) (Tensor [3%nat] [0.1; 0; 7]) 0.01
     = Raise RuntimeError.
Proof.
  assert (Hp : params (__init__ (PyStr "mps")) 9.81 1) by apply init_ready.
  assert (Hd : __init__ (PyStr "mps") !! "dynamics" = None) by apply init_ready.
  split; [exact Hp|]. split; [exact Hd|].
  exact (proj2 (rk4_step_rejects_wide_states (__init__ (PyStr "mps"))
                  9.81 1 0.01 0 (Tensor [3%nat] [0.1; 0; 7]) Hp Hd)
           [] 3%nat eq_refl (le_n 3)).
Defined.

Lemma flat_app (ps qs : list vec) : flat (ps ++ qs) = flat ps ++ flat qs.
Proof. unfold flat. by rewrite map_app, concat_app. Qed.

(** X7.  The states of a batch never interact: the step from two batches
    stacked along the first axis is the stack of the two steps. *)
Theorem rk4_step_batches_independent (self : PendulumSimulator) (g L dt : R)
    (ps qs : list vec) :
  params self g L ->
  self !! "dynamics" = None ->
  exists ps' qs' : list R,
    rk4_step self (Tensor [length ps; 2%nat] (flat ps)) dt
    = Ok (Tensor [length ps; 2%nat] ps')
    /\ rk4_step self (Tensor [length qs; 2%nat] (flat qs)) dt
       = Ok (Tensor [length qs; 2%nat] qs')
    /\ rk4_step self (Tensor [(length ps + length qs)%nat; 2%nat]
                        (flat ps ++ flat qs)) dt
       = Ok (Tensor [(length ps + length qs)%nat; 2%nat] (ps' ++ qs')).
Proof.
  intros Hp Hd.
  assert (Hstep : forall rs : list vec,
            rk4_step self (Tensor [length rs; 2%nat] (flat rs)) dt
            = Ok (Tensor [length rs; 2%nat] (flat (map (rk4_spec g L dt) rs)))).
  { intros rs. apply (rk4_step_flat self g L [length rs] rs dt Hp Hd).
    simpl. lia. }
  eexists _, _. split; [apply Hstep|]. split; [apply Hstep|].
  rewrite <- flat_app, <- length_app, Hstep. by rewrite map_app, flat_app.
Qed.

(** The hypotheses of X7 hold of the default pendulum and the one-state
    batches [[0.1, 0]] and [[0.2, 1]]. *)
Lemma rk4_step_batches_independent_witness :
  params (__init__ (PyStr "mps")) 9.81 1
  /\ __init__ (PyStr "mps") !! "dynamics" = None
  /\ exists ps' qs' : list R,
       rk4_step (__init__ (PyStr "mps")) (Tensor [1%nat; 2%nat] [0.1; 0]) 0.01
       = Ok (Tensor [1%nat; 2%nat] ps')
       /\ rk4_step (__init__ (PyStr "mps")) (Tensor [1%nat; 2%nat] [0.2; 1]) 0.01
          = Ok (Tensor [1%nat; 2%nat] qs')
       /\ rk4_step (__init__ (PyStr "mps"))
            (Tensor [2%nat; 2%nat] [0.1; 0; 0.2; 1]) 0.01
          = Ok (Tensor [2%nat; 2%nat] (ps' ++ qs')).
Proof.
  assert (Hp : params (__init__ (PyStr "mps")) 9.81 1) by apply init_ready.
  assert (Hd : __init__ (PyStr "mps") !! "dynamics" = None) by apply init_ready.
  split; [exact Hp|]. split; [exact Hd|].
  exact (rk4_step_batches_independent (__init__ (PyStr "mps")) 9.81 1 0.01
           [(0.1, 0)] [(0.2, 1)] Hp Hd).
Defined.

End ShapeEdges.

(** ** Further properties of the parameter store *)

Section ParameterStoreExtras.

Local Open Scope R_scope.

Implicit Types (self : PendulumSimulator) (kwargs : list (string * pyval)).

Lemma set_params_keeps_hasattr kwargs : forall self (key : string),
  hasattr self key = true -> hasattr (set_params self kwargs).2 key = true.
Proof.
  induction kwargs as [|[k v] kwargs IH]; intros self key Hkey; [done|].
  simpl. destruct (hasattr self k) eqn:Hk; [|done].
  unfold setattr. repeat case_decide; try done.
  apply IH. by rewrite hasattr_insert.
Qed.

Lemma set_params_keeps_instance kwargs : forall self (key : string),
  is_Some (self !! key) -> is_Some ((set_params self kwargs).2 !! key).
Proof.
  induction kwargs as [|[k v] kwargs IH]; intros self key Hkey; [done|].
  simpl. destruct (hasattr self k) eqn:Hk; [|done].
  unfold setattr. repeat case_decide; try done.
  apply IH. destruct (decide (k = key)) as [->|Hne].
  - rewrite lookup_insert_eq. eauto.
  - by rewrite lookup_insert_ne.
Qed.

(** X8.  Whatever the keywords and whether the call returns or raises,
    [set_params] never removes an attribute and never touches an attribute
    it was not given: every name the object had it still has, and every
    attribute not among the keywords holds the value it held. *)
Theorem set_params_keeps_attributes self kwargs :
  (forall key : string,
     hasattr self key = true -> hasattr (set_params self kwargs).2 key = true)
  /\ (forall key : string,
        is_Some (self !! key) -> is_Some ((set_params self kwargs).2 !! key))
  /\ (forall key : string,
        key ∉ kwargs.*1 -> (set_params self kwargs).2 !! key = self !! key).
Proof.
  split; [|split].
  - intros key. apply set_params_keeps_hasattr.
  - intros key. apply set_params_keeps_instance.
  - intros key. apply set_params_frame.
Qed.

Lemma assign_all_lookup_elem kwargs self (key : string) (value : pyval) :
  NoDup kwargs.*1 -> (key, value) ∈ kwargs ->
  assign_all self kwargs !! key = Some value.
Proof.
  intros Hnd Hin.
  pose proof (assign_all_lookup kwargs self Hnd) as Hall.
  rewrite Forall_forall in Hall. apply (Hall (key, value) Hin).
Qed.

Lemma assign_all_twice kwargs self :
  NoDup kwargs.*1 ->
  assign_all (assign_all self kwargs) kwargs = assign_all self kwargs.
Proof.
  intros Hnd. apply map_eq. intros key.
  destruct (decide (key ∈ kwargs.*1)) as [Hin|Hout].
  - apply list_elem_of_fmap in Hin as ([k v] & -> & Hin). simpl.
    by rewrite !(assign_all_lookup_elem kwargs _ k v).
  - by rewrite assign_all_frame.
Qed.

(** X9.  Repeating an accepted update changes nothing: when every key names
    an attribute, a second [set_params] with the same keywords returns too
    and leaves the object as the first call left it. *)
Theorem set_params_idempotent self kwargs :
  NoDup kwargs.*1 ->
  Forall (fun kv => hasattr self kv.1 = true /\ kv.1 ∉ descriptor_slots) kwargs ->
  exists self',
    set_params self kwargs = (Ok tt, self')
    /\ set_params self' kwargs = (Ok tt, self').
Proof.
  intros Hnd Hall. exists (assign_all self kwargs).
  split; [by apply set_params_all_attributes|].
  rewrite set_params_all_attributes.
  - by rewrite assign_all_twice.
  - eapply Forall_impl; [exact Hall|]. intros [k v] [Hk Hslot]; simpl in *.
    split; [|done].
    pose proof (set_params_keeps_hasattr kwargs self k Hk) as Hkept.
    by rewrite (set_params_all_attributes kwargs self Hall) in Hkept.
Qed.

(** The hypotheses of X9 hold of the default pendulum and the update
    [g=1.62, L=2.0]. *)
Lemma set_params_idempotent_witness :
  NoDup [("g", PyFloat 1.62); ("L", PyFloat 2)].*1
  /\ Forall (fun kv : string * pyval =>
               hasattr (__init__ (PyStr "mps")) kv.1 = true
               /\ kv.1 ∉ descriptor_slots)
       [("g", PyFloat 1.62); ("L", PyFloat 2)]
  /\ exists self',
       set_params (__init__ (PyStr "mps"))
         [("g", PyFloat 1.62); ("L", PyFloat 2)] = (Ok tt, self')
       /\ set_params self' [("g", PyFloat 1.62); ("L", PyFloat 2)]
          = (Ok tt, self').
Proof.
  assert (Hnd : NoDup [("g", PyFloat 1.62); ("L", PyFloat 2)].*1).
  { simpl. repeat (apply NoDup_cons; split; [name_not_in_list|]).
    apply NoDup_nil_2. }
  assert (Hall : Forall (fun kv : string * pyval =>
                           hasattr (__init__ (PyStr "mps")) kv.1 = true
                           /\ kv.1 ∉ descriptor_slots)
                   [("g", PyFloat 1.62); ("L", PyFloat 2)]).
  { unfold descriptor_slots.
    repeat (apply Forall_cons; split; [split; [reflexivity|name_not_in_list]|]).
    apply Forall_nil_2. }
  split; [exact Hnd|]. split; [exact Hall|].
  exact (set_params_idempotent (__init__ (PyStr "mps"))
           [("g", PyFloat 1.62); ("L", PyFloat 2)] Hnd Hall).
Defined.

Lemma set_params_gravity_length self (vg vL : pyval) :
  is_Some (self !! "g") -> is_Some (self !! "L") ->
  set_params self [("g", vg); ("L", vL)]
  = (Ok tt, <["L" := vL]> (<["g" := vg]> self)).
Proof.
  intros Hg HL. apply (set_params_all_attributes [("g", vg); ("L", vL)]).
  unfold descriptor_slots.
  repeat (apply Forall_cons; split;
          [split; [by apply hasattr_instance|name_not_in_list]|]).
  apply Forall_nil_2.
Qed.

(** X10.  The stepper reads gravity and length at every call: after
    [set_params(g=..., L=...)] with numbers, the length not zero, a step is
    the classical Runge-Kutta step with the new gravity and length. *)
Theorem set_params_then_rk4_step self (vg vL : pyval) (g' L' dt : R)
    (lead : list nat) (ps : list vec) :
  is_Some (self !! "g") -> is_Some (self !! "L") ->
  self !! "dynamics" = None ->
  number vg = Ok g' -> number vL = Ok L' -> L' <> 0 ->
  length ps = numel lead ->
  exists self',
    set_params self [("g", vg); ("L", vL)] = (Ok tt, self')
    /\ rk4_step self' (Tensor (lead ++ [2%nat]) (flat ps)) dt
       = Ok (Tensor (lead ++ [2%nat]) (flat (map (rk4_spec g' L' dt) ps))).
Proof.
  intros Hg HL Hd Ng NL Hnz Hlen. eexists.
  split; [by apply set_params_gravity_length|].
  apply rk4_step_flat; [|by simplify_map_eq|done].
  split; [exists vg|exists vL|done]; by simplify_map_eq.
Qed.

(** The hypotheses of X10 hold of the default pendulum, lunar gravity 1.62
    and length 2. *)
Lemma set_params_then_rk4_step_witness :
  is_Some (__init__ (PyStr "mps") !! "g")
  /\ is_Some (__init__ (PyStr "mps") !! "L")
  /\ __init__ (PyStr "mps") !! "dynamics" = None
  /\ number (PyFloat 1.62) = Ok 1.62 /\ number (PyInt 2) = Ok 2
  /\ 2 <> 0
  /\ length [(0.1, 0)] = numel [1%nat]
  /\ exists self',
       set_params (__init__ (PyStr "mps")) [("g", PyFloat 1.62); ("L", PyInt 2)]
       = (Ok tt, self')
       /\ rk4_step self' (Tensor [1%nat; 2%nat] [0.1; 0]) 0.01
          = Ok (Tensor [1%nat; 2%nat] (flat [rk4_spec 1.62 2 0.01 (0.1, 0)])).
Proof.
  assert (Hg : is_Some (__init__ (PyStr "mps") !! "g")).
  { apply init_hasattr. name_in_list. }
  assert (HL : is_Some (__init__ (PyStr "mps") !! "L")).
  { apply init_hasattr. name_in_list. }
  assert (Hd : __init__ (PyStr "mps") !! "dynamics" = None) by apply init_ready.
  assert (Hnz : 2 <> 0) by lra.
  split; [exact Hg|]. split; [exact HL|]. split; [exact Hd|].
  split; [reflexivity|]. split; [reflexivity|]. split; [exact Hnz|].
  split; [reflexivity|].
  exact (set_params_then_rk4_step (__init__ (PyStr "mps"))
           (PyFloat 1.62) (PyInt 2) 1.62 2 0.01 [1%nat] [(0.1, 0)]
           Hg HL Hd eq_refl eq_refl Hnz eq_refl).
Defined.

Lemma split_last_nonempty (s : list nat) :
  s <> [] -> exists lead n, split_last s = Some (lead, n).
Proof.
  destruct s as [|d s]; [done|]. intros _. simpl.
  destruct (split_last s) as [[lead n]|]; eauto.
Qed.

(** X11.  [set_params] validates no value: a length of zero is accepted,
    and from then on [dynamics] raises [ZeroDivisionError] on every tensor
    that has at least one axis. *)
Theorem set_params_zero_length self (g : R) (vL : pyval) (state : tensor) (t : R) :
  has_number self "g" g ->
  is_Some (self !! "L") ->
  number vL = Ok 0 ->
  shape state <> [] ->
  exists self',
    set_params self [("L", vL)] = (Ok tt, self')
    /\ dynamics self' state t = Raise ZeroDivisionError.
Proof.
  intros (vg & Hg & Ng) HL NL Hs. exists (<["L" := vL]> self). split.
  - apply (set_params_all_attributes [("L", vL)]).
    apply Forall_singleton. split; [by apply hasattr_instance|].
    unfold descriptor_slots. name_not_in_list.
  - destruct (split_last_nonempty _ Hs) as (lead & n & E).
    unfold dynamics, slice_last, getattr, py_div. rewrite E, !bind_Ok.
    rewrite (lookup_insert_ne _ "L" "g") by discriminate. rewrite Hg, bind_Ok.
    rewrite lookup_insert_eq, bind_Ok, Ng, NL, !bind_Ok.
    destruct (Req_EM_T 0 0) as [_|Hne]; [done|by destruct Hne].
Qed.

(** The hypotheses of X11 hold of the default pendulum, the length [0.0]
    and the state [[0.1, 0]]. *)
Lemma set_params_zero_length_witness :
  has_number (__init__ (PyStr "mps")) "g" 9.81
  /\ is_Some (__init__ (PyStr "mps") !! "L")
  /\ number (PyFloat 0) = Ok 0
  /\ shape (Tensor [2%nat] [0.1; 0]) <> []
  /\ exists self',
       set_params (__init__ (PyStr "mps")) [("L", PyFloat 0)] = (Ok tt, self')
       /\ dynamics self' (Tensor [2%nat] [0.1; 0]) 0 = Raise ZeroDivisionError.
Proof.
  assert (Hg : has_number (__init__ (PyStr "mps")) "g" 9.81) by apply init_ready.
  assert (HL : is_Some (__init__ (PyStr "mps") !! "L")).
  { apply init_hasattr. name_in_list. }
  assert (Hs : shape (Tensor [2%nat] [0.1; 0]) <> []) by discriminate.
  split; [exact Hg|]. split; [exact HL|]. split; [reflexivity|].
  split; [exact Hs|].
  exact (set_params_zero_length (__init__ (PyStr "mps")) 9.81 (PyFloat 0)
           (Tensor [2%nat] [0.1; 0]) 0 Hg HL eq_refl Hs).
Defined.

(** X12.  [set_params] accepts the name of a method for every simulator
    and every value, and the instance attribute it stores shadows the
    method: after [set_params(dynamics=v)] every [rk4_step] raises
    [TypeError], and after [set_params(rk4_step=v)] so does every pass of the
    loop of [simulate]. *)
Theorem set_params_shadows_methods self (v : pyval) (state trajectory : tensor)
    (dt : R) (i : nat) (range : list nat) :
  set_params self [("dynamics", v)] = (Ok tt, <["dynamics" := v]> self)
  /\ rk4_step (<["dynamics" := v]> self) state dt = Raise TypeError
  /\ set_params self [("rk4_step", v)] = (Ok tt, <["rk4_step" := v]> self)
  /\ simulate_loop (<["rk4_step" := v]> self) dt (i :: range) state trajectory
     = Raise TypeError.
Proof.
  assert (Hset : forall name : string,
            name ∈ class_attrs -> name ∉ descriptor_slots ->
            set_params self [(name, v)] = (Ok tt, <[name := v]> self)).
  { intros name Hin Hout. apply (set_params_all_attributes [(name, v)]).
    apply Forall_singleton. split; [by apply hasattr_class|done]. }
  split; [|split; [|split]].
  - apply Hset; [unfold class_attrs; name_in_list|].
    unfold descriptor_slots. name_not_in_list.
  - unfold rk4_step, method. by rewrite lookup_insert_eq.
  - apply Hset; [unfold class_attrs; name_in_list|].
    unfold descriptor_slots. name_not_in_list.
  - simpl. unfold method. by rewrite lookup_insert_eq.
Qed.

End ParameterStoreExtras.

(** ** Further properties of the trajectory driver *)

Section DriverExtras.

Local Open Scope R_scope.

Lemma dynamics_agree (self self' : PendulumSimulator) (state : tensor) (t : R) :
  self' !! "g" = self !! "g" -> self' !! "L" = self !! "L" ->
  dynamics self' state t = dynamics self state t.
Proof. intros Hg HL. unfold dynamics, getattr. by rewrite Hg, HL. Qed.

Lemma rk4_step_agree (self self' : PendulumSimulator) (state : tensor) (dt : R) :
  self' !! "g" = self !! "g" -> self' !! "L" = self !! "L" ->
  self' !! "dynamics" = self !! "dynamics" ->
  rk4_step self' state dt = rk4_step self state dt.
Proof.
  intros Hg HL Hd. unfold rk4_step, method. rewrite Hd.
  same_head.
  repeat (rewrite (dynamics_agree self self') by done; same_head; same_head).
  reflexivity.
Qed.

Lemma simulate_loop_agree (self self' : PendulumSimulator) (dt : R)
    (range : list nat) :
  self' !! "g" = self !! "g" -> self' !! "L" = self !! "L" ->
  self' !! "dynamics" = self !! "dynamics" ->
  self' !! "rk4_step" = self !! "rk4_step" ->
  forall state trajectory : tensor,
    simulate_loop self' dt range state trajectory
    = simulate_loop self dt range state trajectory.
Proof.
  intros Hg HL Hd Hr. induction range as [|i range IH]; intros state trajectory.
  - reflexivity.
  - simpl. unfold method. rewrite Hr. same_head.
    rewrite (rk4_step_agree self self') by done. same_head. same_head.
    apply IH.
Qed.

(** X13.  The motion depends on the simulator through gravity, length,
    device and the two method names only: two simulators that agree on these
    give the same outcome of [dynamics], [rk4_step] and [simulate] on every
    input.  In particular the mass never influences a trajectory. *)
Theorem simulate_ignores_other_attributes (self self' : PendulumSimulator) :
  (forall key : string, key ∈ simulation_attrs -> self' !! key = self !! key) ->
  (forall (state : tensor) (t : R),
     dynamics self' state t = dynamics self state t)
  /\ (forall (state : tensor) (dt : R),
        rk4_step self' state dt = rk4_step self state dt)
  /\ (forall (initial_state : state_arg) (duration dt : R) (return_tensor : bool),
        simulate self' initial_state duration dt return_tensor
        = simulate self initial_state duration dt return_tensor).
Proof.
  intros Hsame.
  assert (Hg : self' !! "g" = self !! "g")
    by (apply Hsame; unfold simulation_attrs; name_in_list).
  assert (HL : self' !! "L" = self !! "L")
    by (apply Hsame; unfold simulation_attrs; name_in_list).
  assert (Hdev : self' !! "device" = self !! "device")
    by (apply Hsame; unfold simulation_attrs; name_in_list).
  assert (Hd : self' !! "dynamics" = self !! "dynamics")
    by (apply Hsame; unfold simulation_attrs; name_in_list).
  assert (Hr : self' !! "rk4_step" = self !! "rk4_step")
    by (apply Hsame; unfold simulation_attrs; name_in_list).
  split; [|split].
  - intros state t. by apply dynamics_agree.
  - intros state dt. by apply rk4_step_agree.
  - intros initial_state duration dt return_tensor.
    unfold simulate, simulate_with, getattr. rewrite Hdev.
    repeat same_head.
    by rewrite (simulate_loop_agree self self').
Qed.

(** The hypothesis of X13 holds of the default pendulum and the same
    pendulum with its mass set to 5. *)
Lemma simulate_ignores_other_attributes_witness :
  (forall key : string, key ∈ simulation_attrs ->
     (set_params (__init__ (PyStr "mps")) [("m", PyFloat 5)]).2 !! key
     = __init__ (PyStr "mps") !! key)
  /\ forall (initial_state : state_arg) (duration dt : R) (return_tensor : bool),
       simulate (set_params (__init__ (PyStr "mps")) [("m", PyFloat 5)]).2
         initial_state duration dt return_tensor
       = simulate (__init__ (PyStr "mps")) initial_state duration dt
           return_tensor.
Proof.
  assert (Hsame : forall key : string, key ∈ simulation_attrs ->
            (set_params (__init__ (PyStr "mps")) [("m", PyFloat 5)]).2 !! key
            = __init__ (PyStr "mps") !! key).
  { intros key Hkey. apply set_params_frame. simpl.
    intros Hm. apply list_elem_of_singleton in Hm as ->.
    revert Hkey. unfold simulation_attrs. name_not_in_list. }
  split; [exact Hsame|].
  exact (proj2 (proj2 (simulate_ignores_other_attributes
                         (__init__ (PyStr "mps"))
                         (set_params (__init__ (PyStr "mps"))
                            [("m", PyFloat 5)]).2 Hsame))).
Defined.

Lemma py_int_small (x : R) : -1 < x < 1 -> py_int x = 0%Z.
Proof.
  intros [Hlo Hhi]. unfold py_int. destruct (Rle_dec 0 x).
  - symmetry. apply Int_part_spec. simpl. lra.
  - replace (Int_part (- x)) with 0%Z; [done|].
    apply Int_part_spec. simpl. lra.
Qed.

Lemma py_int_minus_one (x : R) : -2 < x <= -1 -> py_int x = (-1)%Z.
Proof.
  intros [Hlo Hhi]. unfold py_int. destruct (Rle_dec 0 x); [lra|].
  replace (Int_part (- x)) with 1%Z; [done|].
  apply Int_part_spec. simpl. lra.
Qed.

Lemma py_int_below (x : R) : x <= -2 -> (py_int x + 1 < 0)%Z.
Proof.
  intros Hx. unfold py_int. destruct (Rle_dec 0 x); [lra|].
  destruct (base_Int_part (- x)) as [_ Hgt].
  assert (1 < Int_part (- x))%Z; [|lia].
  apply lt_IZR. lra.
Qed.

(** X14.  A run shorter than one step does not look at the initial state:
    when the device attribute is present and [duration / dt] lies strictly
    between -1 and 1, [simulate] returns the single time 0 and a single
    all-zero entry of the promoted shape, for every tensor, state or not,
    and whatever the parameters are. *)
Theorem simulate_run_shorter_than_step (self : PendulumSimulator)
    (init : tensor) (duration dt : R) (return_tensor : bool) :
  is_Some (self !! "device") ->
  dt <> 0 ->
  -1 < duration / dt < 1 ->
  simulate self (FromTensor init) duration dt return_tensor
  = Ok (as_array return_tensor (Tensor [1%nat] [0]),
        as_array return_tensor (zeros (1%nat :: shape (batch_promote init)))).
Proof.
  intros [dev Hdev] Hdt Hratio. unfold simulate, simulate_with, getattr.
  rewrite bind_Ok, Hdev.
  destruct (Req_EM_T dt 0) as [|_]; [done|].
  rewrite !bind_Ok, (py_int_small _ Hratio).
  by destruct return_tensor.
Qed.

(** The hypotheses of X14 hold of the default pendulum, a duration of 0.005
    and a step of 0.01, on the state [[0.1, 0]]. *)
Lemma simulate_run_shorter_than_step_witness :
  is_Some (__init__ (PyStr "mps") !! "device")
  /\ 0.01 <> 0
  /\ -1 < 0.005 / 0.01 < 1
  /\ simulate (__init__ (PyStr "mps")) (FromTensor (Tensor [2%nat] [0.1; 0]))
       0.005 0.01 true
     = Ok (TorchTensor (Tensor [1%nat] [0]),
           TorchTensor (Tensor [1%nat; 1%nat; 2%nat] [0; 0])).
Proof.
  assert (Hdev : is_Some (__init__ (PyStr "mps") !! "device"))
    by apply init_ready.
  assert (Hdt : 0.01 <> 0) by lra.
  assert (Hratio : -1 < 0.005 / 0.01 < 1) by lra.
  split; [exact Hdev|]. split; [exact Hdt|]. split; [exact Hratio|].
  exact (simulate_run_shorter_than_step (__init__ (PyStr "mps"))
           (Tensor [2%nat] [0.1; 0]) 0.005 0.01 true Hdev Hdt Hratio).
Defined.

(** X15.  The degenerate runs of [simulate] on a tensor: a step of zero
    raises [ZeroDivisionError]; a ratio [duration / dt] in [(-2, -1]] gives
    empty times and an empty trajectory; a ratio of -2 or less raises the
    [RuntimeError] of allocating a negative number of entries. *)
Theorem simulate_degenerate_durations (self : PendulumSimulator)
    (init : tensor) (duration dt : R) (return_tensor : bool) :
  is_Some (self !! "device") ->
  (dt = 0 ->
   simulate self (FromTensor init) duration dt return_tensor
   = Raise ZeroDivisionError)
  /\ (dt <> 0 -> -2 < duration / dt <= -1 ->
      simulate self (FromTensor init) duration dt return_tensor
      = Ok (as_array return_tensor (Tensor [0%nat] []),
            as_array return_tensor
              (Tensor (0%nat :: shape (batch_promote init)) [])))
  /\ (dt <> 0 -> duration / dt <= -2 ->
      simulate self (FromTensor init) duration dt return_tensor
      = Raise RuntimeError).
Proof.
  intros [dev Hdev]. unfold simulate, simulate_with, getattr.
  rewrite bind_Ok, Hdev.
  split; [|split].
  - intros ->. by destruct (Req_EM_T 0 0) as [_|Hne]; [|destruct Hne].
  - intros Hdt Hratio. destruct (Req_EM_T dt 0) as [|_]; [done|].
    rewrite !bind_Ok, (py_int_minus_one _ Hratio).
    by destruct return_tensor.
  - intros Hdt Hratio. destruct (Req_EM_T dt 0) as [|_]; [done|].
    rewrite !bind_Ok. unfold torch_zeros.
    pose proof (py_int_below _ Hratio) as Hneg.
    by destruct (Z.ltb_spec (py_int (duration / dt) + 1) 0); [|lia].
Qed.

(** The hypothesis of X15 holds of the default pendulum; a duration of -1
    with a step of 0.01 fails in the allocation. *)
Lemma simulate_degenerate_durations_witness :
  is_Some (__init__ (PyStr "mps") !! "device")
  /\ simulate (__init__ (PyStr "mps")) (FromTensor (Tensor [2%nat] [0.1; 0]))
       (-1) 0.01 true
     = Raise RuntimeError.
Proof.
  assert (Hdev : is_Some (__init__ (PyStr "mps") !! "device"))
    by apply init_ready.
  assert (Hdt : 0.01 <> 0) by lra.
  assert (Hratio : -1 / 0.01 <= -2) by lra.
  split; [exact Hdev|].
  exact (proj2 (proj2 (simulate_degenerate_durations (__init__ (PyStr "mps"))
                         (Tensor [2%nat] [0.1; 0]) (-1) 0.01 true Hdev))
           Hdt Hratio).
Defined.

End DriverExtras.

Section TrajectoryExtras.

Local Open Scope R_scope.

(** X16.  The times are spread over the duration, not stepped by [dt]:
    for a run of [n >= 1] steps, [n] being the number of steps [simulate]
    takes, [times[i]] equals [i * dt] at every index exactly when the
    duration is the whole multiple [n * dt] of the step. *)
Theorem simulate_times_are_steps_iff (quot : R -> R -> R) (requires_grad : bool)
    (self : PendulumSimulator) (g L duration dt : R) (init : tensor)
    (return_tensor : bool) :
  rounded_division quot ->
  ready self g L ->
  state_shaped init -> wf init ->
  0 < duration -> 0 < dt ->
  requires_grad = false \/ return_tensor = true ->
  exists (times trajectory : array) (n : nat),
    simulate_with quot requires_grad self (FromTensor init) duration dt
      return_tensor
    = Ok (times, trajectory)
    /\ py_int (quot duration dt) = Z.of_nat n
    /\ len (array_tensor times) = Ok (S n)
    /\ ((1 <= n)%nat ->
        ((forall i : nat, (i <= n)%nat ->
            data (array_tensor times) !! i = Some (INR i * dt))
         <-> duration = INR n * dt)).
Proof.
  intros Hquot Hready Hshape Hwf Hduration Hdt Hnumpy.
  destruct (simulate_with_states quot requires_grad self g L duration dt init
              return_tensor)
    as (n & lead & ps & Hn & _ & Hinit & Hps & Hsim); try done.
  eexists _, _, n. split; [exact Hsim|]. split; [exact Hn|].
  rewrite array_tensor_as_array. split; [reflexivity|]. intros H1.
  assert (Hnz : INR n <> 0) by (apply not_0_INR; lia).
  split.
  - intros Hall. specialize (Hall n (le_n n)).
    rewrite linspace_lookup in Hall by lia.
    injection Hall as Hall. rewrite <- Hall. by field.
  - intros -> i Hi. rewrite linspace_lookup by lia. f_equal. by field.
Qed.

(** The hypotheses of X16 hold of the default pendulum, the single state
    [[0.1, 0]], the floats 0.3 and 0.1 as duration and step, and their
    float quotient. *)
Lemma simulate_times_are_steps_iff_witness :
  rounded_division quot_three_tenths
  /\ ready (__init__ (PyStr "mps")) 9.81 1
  /\ state_shaped (Tensor [2%nat] [0.1; 0])
  /\ wf (Tensor [2%nat] [0.1; 0])
  /\ 0 < float_0_3 /\ 0 < float_0_1
  /\ exists (times trajectory : array) (n : nat),
       simulate_with quot_three_tenths false (__init__ (PyStr "mps"))
         (FromTensor (Tensor [2%nat] [0.1; 0])) float_0_3 float_0_1 true
       = Ok (times, trajectory)
       /\ py_int (quot_three_tenths float_0_3 float_0_1) = Z.of_nat n
       /\ len (array_tensor times) = Ok (S n)
       /\ ((1 <= n)%nat ->
           ((forall i : nat, (i <= n)%nat ->
               data (array_tensor times) !! i = Some (INR i * float_0_1))
            <-> float_0_3 = INR n * float_0_1)).
Proof.
  assert (Hquot := rounded_division_three_tenths).
  assert (Hready := init_ready (PyStr "mps")).
  assert (Hshape : state_shaped (Tensor [2%nat] [0.1; 0])) by (by exists []).
  assert (Hwf : wf (Tensor [2%nat] [0.1; 0])) by reflexivity.
  assert (Hduration : 0 < float_0_3) by (unfold float_0_3; lra).
  assert (Hdt : 0 < float_0_1) by (unfold float_0_1; lra).
  repeat (split; [assumption|]).
  exact (simulate_times_are_steps_iff quot_three_tenths false
           (__init__ (PyStr "mps")) 9.81 1 float_0_3 float_0_1
           (Tensor [2%nat] [0.1; 0]) true
           Hquot Hready Hshape Hwf Hduration Hdt (or_introl eq_refl)).
Defined.

Lemma rk4_steps_flat (self : PendulumSimulator) (g L dt : R) (lead : list nat)
    (ps : list vec) (i : nat) :
  params self g L ->
  self !! "dynamics" = None ->
  length ps = numel lead ->
  rk4_steps self dt i (Tensor (lead ++ [2%nat]) (flat ps))
  = Ok (Tensor (lead ++ [2%nat]) (flat (rk4_iter g L dt i ps))).
Proof.
  intros Hp Hd Hps. induction i as [|i IH]; [done|].
  simpl. rewrite IH, bind_Ok.
  by rewrite (rk4_step_flat self g L) by (by rewrite ?length_rk4_iter).
Qed.

(** X17.  From entry 1 on, the trajectory holds the iterated steps from the
    initial state: the trajectory has [n + 1] entries, [n] being the number
    of steps [simulate] takes, and for [1 <= i <= n], [trajectory[i]] is the
    result of [i] successive calls of [rk4_step] with step [dt], started at
    the batch-promoted initial state; these calls all return. *)
Theorem simulate_entries_are_iterated_steps (quot : R -> R -> R)
    (requires_grad : bool) (self : PendulumSimulator)
    (g L duration dt : R) (init : tensor) (return_tensor : bool) :
  rounded_division quot ->
  ready self g L ->
  state_shaped init -> wf init ->
  0 < duration -> 0 < dt ->
  requires_grad = false \/ return_tensor = true ->
  exists (times trajectory : array) (n : nat),
    simulate_with quot requires_grad self (FromTensor init) duration dt
      return_tensor
    = Ok (times, trajectory)
    /\ py_int (quot duration dt) = Z.of_nat n
    /\ len (array_tensor trajectory) = Ok (S n)
    /\ forall i : nat, (1 <= i <= n)%nat ->
         exists entry : tensor,
           getitem0 (array_tensor trajectory) i = Ok entry
           /\ rk4_steps self dt i (batch_promote init) = Ok entry.
Proof.
  intros Hquot Hready Hshape Hwf Hduration Hdt Hnumpy.
  destruct (simulate_with_states quot requires_grad self g L duration dt init
              return_tensor)
    as (n & lead & ps & Hn & _ & Hinit & Hps & Hsim); try done.
  eexists _, _, n. split; [exact Hsim|]. split; [exact Hn|].
  rewrite array_tensor_as_array, Hinit. split; [reflexivity|]. intros i Hi.
  eexists. split; [by apply trajectory_of_later|].
  apply rk4_steps_flat; try done; apply Hready.
Qed.

(** The hypotheses of X17 hold of the default pendulum, the single state
    [[0.1, 0]], the floats 0.3 and 0.1 as duration and step, and their
    float quotient. *)
Lemma simulate_entries_are_iterated_steps_witness :
  rounded_division quot_three_tenths
  /\ ready (__init__ (PyStr "mps")) 9.81 1
  /\ state_shaped (Tensor [2%nat] [0.1; 0])
  /\ wf (Tensor [2%nat] [0.1; 0])
  /\ 0 < float_0_3 /\ 0 < float_0_1
  /\ exists (times trajectory : array) (n : nat),
       simulate_with quot_three_tenths false (__init__ (PyStr "mps"))
         (FromTensor (Tensor [2%nat] [0.1; 0])) float_0_3 float_0_1 true
       = Ok (times, trajectory)
       /\ py_int (quot_three_tenths float_0_3 float_0_1) = Z.of_nat n
       /\ len (array_tensor trajectory) = Ok (S n)
       /\ forall i : nat, (1 <= i <= n)%nat ->
            exists entry : tensor,
              getitem0 (array_tensor trajectory) i = Ok entry
              /\ rk4_steps (__init__ (PyStr "mps")) float_0_1 i
                   (Tensor [1%nat; 2%nat] [0.1; 0]) = Ok entry.
Proof.
  assert (Hquot := rounded_division_three_tenths).
  assert (Hready := init_ready (PyStr "mps")).
  assert (Hshape : state_shaped (Tensor [2%nat] [0.1; 0])) by (by exists []).
  assert (Hwf : wf (Tensor [2%nat] [0.1; 0])) by reflexivity.
  assert (Hduration : 0 < float_0_3) by (unfold float_0_3; lra).
  assert (Hdt : 0 < float_0_1) by (unfold float_0_1; lra).
  repeat (split; [assumption|]).
  exact (simulate_entries_are_iterated_steps quot_three_tenths false
           (__init__ (PyStr "mps")) 9.81 1 float_0_3 float_0_1
           (Tensor [2%nat] [0.1; 0]) true
           Hquot Hready Hshape Hwf Hduration Hdt (or_introl eq_refl)).
Defined.

Lemma rk4_iter_rest (g L dt : R) (i k : nat) :
  rk4_iter g L dt i (replicate k (0, 0)) = replicate k (0, 0).
Proof.
  unfold rk4_iter. induction i as [|i IH]; [done|].
  simpl. rewrite IH. clear IH. induction k as [|k IHk]; [done|].
  simpl. by rewrite rk4_spec_rest, IHk.
Qed.

Lemma batch_promote_zeros (lead : list nat) :
  exists lead' : list nat,
    batch_promote (zeros (lead ++ [2%nat])) = zeros (lead' ++ [2%nat]).
Proof.
  unfold batch_promote. destruct (dim _ =? 1)%nat.
  - exists (1%nat :: lead). unfold unsqueeze0, zeros. simpl.
    by rewrite Nat.add_0_r.
  - by exists lead.
Qed.

(** X18.  A pendulum started at rest is reported at rest: when every
    initial state is [[0, 0]], every entry of the trajectory, entry 0
    included, is the batch-promoted initial state. *)
Theorem simulate_from_rest (quot : R -> R -> R) (requires_grad : bool)
    (self : PendulumSimulator) (g L duration dt : R) (lead : list nat)
    (return_tensor : bool) :
  rounded_division quot ->
  ready self g L ->
  0 < duration -> 0 < dt ->
  requires_grad = false \/ return_tensor = true ->
  exists (times trajectory : array) (n : nat),
    simulate_with quot requires_grad self
      (FromTensor (zeros (lead ++ [2%nat]))) duration dt return_tensor
    = Ok (times, trajectory)
    /\ py_int (quot duration dt) = Z.of_nat n
    /\ len (array_tensor trajectory) = Ok (S n)
    /\ forall i : nat, (i <= n)%nat ->
         getitem0 (array_tensor trajectory) i
         = Ok (batch_promote (zeros (lead ++ [2%nat]))).
Proof.
  intros Hquot Hready Hduration Hdt Hnumpy.
  destruct (batch_promote_zeros lead) as [lead' Hinit].
  assert (0 <= quot duration dt) as Hq.
  { apply (quot_above quot Hquot duration dt 0%Z); [done|].
    apply Rlt_le, Rdiv_lt_0_compat; lra. }
  destruct (py_int_nonneg _ Hq) as (n & Hn & _).
  eexists _, _, n. split.
  - apply (simulate_with_tensor self g L dt Hready quot requires_grad
             (zeros (lead ++ [2%nat])) lead'
             (replicate (numel lead') (0, 0)) duration return_tensor n);
      [by rewrite Hinit, zeros_flat|apply length_replicate|lra|done|tauto].
  - split; [done|]. rewrite array_tensor_as_array, Hinit.
    split; [reflexivity|]. intros i Hi. destruct i as [|i].
    + apply trajectory_of_first, length_replicate.
    + rewrite trajectory_of_later by (rewrite ?length_replicate; lia).
      by rewrite rk4_iter_rest, <- zeros_flat.
Qed.

(** The hypotheses of X18 hold of the default pendulum, the single state
    [[0, 0]], the floats 0.3 and 0.1 as duration and step, and their float
    quotient. *)
Lemma simulate_from_rest_witness :
  rounded_division quot_three_tenths
  /\ ready (__init__ (PyStr "mps")) 9.81 1
  /\ 0 < float_0_3 /\ 0 < float_0_1
  /\ exists (times trajectory : array) (n : nat),
       simulate_with quot_three_tenths false (__init__ (PyStr "mps"))
         (FromTensor (zeros [2%nat])) float_0_3 float_0_1 true
       = Ok (times, trajectory)
       /\ py_int (quot_three_tenths float_0_3 float_0_1) = Z.of_nat n
       /\ len (array_tensor trajectory) = Ok (S n)
       /\ forall i : nat, (i <= n)%nat ->
            getitem0 (array_tensor trajectory) i
            = Ok (batch_promote (zeros [2%nat])).
Proof.
  assert (Hquot := rounded_division_three_tenths).
  assert (Hready := init_ready (PyStr "mps")).
  assert (Hduration : 0 < float_0_3) by (unfold float_0_3; lra).
  assert (Hdt : 0 < float_0_1) by (unfold float_0_1; lra).
  repeat (split; [assumption|]).
  exact (simulate_from_rest quot_three_tenths false (__init__ (PyStr "mps"))
           9.81 1 float_0_3 float_0_1 [] true
           Hquot Hready Hduration Hdt (or_introl eq_refl)).
Defined.



End TrajectoryExtras.

Section EnergyExtras.

Local Open Scope R_scope.

(** X20.  Which exception [compute_energy] raises, with numeric mass,
    gravity and length: [IndexError] on a tensor without axes or with a last
    axis of fewer than two entries, where no velocity can be read, and
    [TypeError] on every tensor with a last axis of two or more entries. *)
Theorem compute_energy_error_kind (self : PendulumSimulator) (m g L : R)
    (states : tensor) :
  has_number self "m" m -> has_number self "g" g -> has_number self "L" L ->
  (shape states = [] -> compute_energy self states = Raise IndexError)
  /\ (forall (lead : list nat) (n : nat),
        shape states = lead ++ [n] ->
        ((n <= 1)%nat -> compute_energy self states = Raise IndexError)
        /\ ((2 <= n)%nat -> compute_energy self states = Raise TypeError)).
Proof.
  intros Hm Hg HL.
  destruct (getattr_number _ _ _ Hm) as (vm & Em & Nm).
  destruct (getattr_number _ _ _ Hg) as (vg & Eg & Ng).
  destruct (getattr_number _ _ _ HL) as (vL & EL & NL).
  destruct (py_mul_numbers (PyFloat 0.5) vm 0.5 m eq_refl Nm) as (hm & Ehm & Nhm).
  destruct (py_mul_numbers vm vg m g Nm Ng) as (mg & Emg & Nmg).
  unfold compute_energy, index_last, py_mul_tensor, py_call. split.
  - by intros ->.
  - intros lead n ->. rewrite split_last_app. split.
    + intros Hn. destruct n as [|[|n]]; [done|done|lia].
    + intros Hn. destruct (Nat.ltb_spec 0 n); [|lia].
      destruct (Nat.ltb_spec 1 n); [|lia].
      repeat first
        [ rewrite bind_Ok | rewrite Em | rewrite Eg | rewrite EL | rewrite NL
        | rewrite Ehm | rewrite Nhm | rewrite Emg ].
      reflexivity.
Qed.

(** The hypotheses of X20 hold of the default pendulum; on the tensor
    [[0.1]] of one component the exception is [IndexError]. *)
Lemma compute_energy_error_kind_witness :
  has_number (__init__ (PyStr "mps")) "m" 1
  /\ has_number (__init__ (PyStr "mps")) "g" 9.81
  /\ has_number (__init__ (PyStr "mps")) "L" 1
  /\ compute_energy (__init__ (PyStr "mps")) (Tensor [1%nat; 1%nat] [0.1])
     = Raise IndexError.
Proof.
  destruct (init_numbers (PyStr "mps")) as (Hm & Hg & HL).
  split; [exact Hm|]. split; [exact Hg|]. split; [exact HL|].
  exact (proj1 (proj2 (compute_energy_error_kind (__init__ (PyStr "mps"))
                         1 9.81 1 (Tensor [1%nat; 1%nat] [0.1]) Hm Hg HL)
                  [1%nat] 1%nat eq_refl)
           (le_n 1)).
Defined.

End EnergyExtras.
